(** * Demo-mode response fabricators of the dashboard

    A shallow embedding of [frontend/src/services/mockData.js]: the four
    generators [mockCreditAssessment], [mockPortfolioOptimization],
    [mockMicroLoan] and [mockGreenwashingCheck], followed by the properties
    the design document states about them.

    Conventions of the embedding.
    - A JavaScript number is an exact rational ([Q]); a decimal literal of the
      source denotes its decimal value ([0.6] is six tenths).  Every division
      of the source has a non-zero divisor on the paths modelled here (see
      [amortization_denominator_pos] and [portfolio_divisors_nonzero]), so
      no infinity and no NaN arises from finite arguments.
    - [Math.random()] and [new Date()] read an ambient [World]; the k-th call
      of [Math.random()] returns [Math_random w k].
    - A generator is a computation [JS A]: it reads the world, advances the
      count of random draws, and either returns a value or throws. *)

From Stdlib Require Import QArith Qround Qminmax Qabs Qpower Lia Lqa.
From stdpp Require Import gmap strings pretty.

Local Open Scope Q_scope.
Local Open Scope string_scope.

(** ** Numbers *)

Module Num.

(** [x >= y], [x > y], [x < y], [x <= y] of the source. *)
Definition geb (x y : Q) : bool := Qle_bool y x.
Definition gtb (x y : Q) : bool := negb (Qle_bool x y).
Definition ltb (x y : Q) : bool := negb (Qle_bool y x).
Definition leb (x y : Q) : bool := Qle_bool x y.

(** [Math.floor]. *)
Definition Math_floor (x : Q) : Q := inject_Z (Qfloor x).

(** [Math.round]: the nearest integer, a tie going up. *)
Definition Math_round (x : Q) : Q := inject_Z (Qfloor (x + 0.5)).

(** [Math.min] and [Math.pow] (the exponent of the source is the integer
    [termMonths]). *)
Definition Math_min (x y : Q) : Q := Qmin x y.
Definition Math_pow (x : Q) (n : Z) : Q := Qpower x n.

(** The idiom [Math.round(x * k) / k]. *)
Definition roundTo (k x : Q) : Q := Math_round (x * k) / k.

(** The decimal text of an integral number, as a template literal
    interpolates it. *)
Definition toString (x : Q) : string := pretty (Qfloor x).

End Num.

Declare Scope js_scope.
Delimit Scope js_scope with js.
Infix ">=?" := Num.geb (at level 70, no associativity) : js_scope.
Infix ">?" := Num.gtb (at level 70, no associativity) : js_scope.
Infix "<?" := Num.ltb (at level 70, no associativity) : js_scope.
Infix "<=?" := Num.leb (at level 70, no associativity) : js_scope.
Local Open Scope js_scope.

(** ** The ambient world and the effect monad *)

Record World := {
  (** successive results of [Math.random()], each in [0, 1) *)
  Math_random : nat -> Q;
  (** [new Date().toISOString()] *)
  Date_toISOString : string;
  (** the date thirty days ahead, as [toISOString().split('T')[0]] prints it *)
  Date_in30days : string
}.

(** Every draw of the world lies in the half-open unit interval. *)
Definition unit_draws (w : World) : Prop :=
  forall k, 0 <= Math_random w k /\ Math_random w k < 1.

Inductive error : Type :=
| TypeError (msg : string).

Inductive outcome (A : Type) : Type :=
| Returns (a : A) (draws : nat)
| Throws (e : error).
Arguments Returns {A} a draws.
Arguments Throws {A} e.

Definition JS (A : Type) : Type := World -> nat -> outcome A.

Definition ret {A} (a : A) : JS A := fun _ k => Returns a k.

Definition bind {A B} (m : JS A) (f : A -> JS B) : JS B :=
  fun w k =>
    match m w k with
    | Returns a k' => f a w k'
    | Throws e => Throws e
    end.

Definition throw {A} (e : error) : JS A := fun _ _ => Throws e.

Notation "'let*' x := m 'in' f" := (bind m (fun x => f))
  (at level 10, x name, m at level 100, f at level 200) : js_scope.

Definition random : JS Q := fun w k => Returns (Math_random w k) (S k).
Definition now : JS string := fun w k => Returns (Date_toISOString w) k.
Definition in30days : JS string := fun w k => Returns (Date_in30days w) k.

Fixpoint mapM {A B} (f : A -> JS B) (l : list A) : JS (list B) :=
  match l with
  | [] => ret []
  | a :: l' => let* b := f a in let* bs := mapM f l' in ret (b :: bs)
  end.

(** [randomBetween] and [randomInt] (lines 3-4). *)
Definition randomBetween (min max : Q) : JS Q :=
  let* u := random in ret (u * (max - min) + min).

Definition randomInt (min max : Q) : JS Q :=
  let* x := randomBetween min max in ret (Num.Math_floor x).

(** ** Credit assessment (lines 19-86) *)

Module Credit.

Record TraditionalRisk := {
  risk_score : Q;
  revenue_assessment : string;
  profitability_assessment : string;
  leverage_assessment : string;
  liquidity_assessment : string;
  default_history : string
}.

Record CarbonRisk := {
  carbon_risk_score : Q;
  emission_intensity : string;
  trend_direction : string;
  transition_readiness : string;
  regulatory_risk : string;
  stranded_asset_risk : string
}.

Record EsgRisk := {
  esg_risk_score : Q;
  environmental_rating : string;
  social_rating : string;
  governance_rating : string;
  sdg_aligned_count : Q;
  reputational_risk : string
}.

Record RiskAnalysis := {
  traditional_risk : TraditionalRisk;
  carbon_risk : CarbonRisk;
  esg_risk : EsgRisk;
  composite_risk_score : Q;
  credit_score : Q;
  risk_category : string
}.

Record CreditRating := {
  rating : string;
  combined_score : Q;
  traditional_score : Q;
  rating_carbon_score : Q;   (* credit_rating.carbon_score *)
  interest_rate_adjustment : Q
}.

Record Result := {
  entity_id : string;
  timestamp : string;
  carbon_score : Q;
  risk_analysis : RiskAnalysis;
  credit_rating : CreditRating;
  recommendations : list string;
  status : string
}.

(** Line 23. *)
Definition combinedScoreOf (traditionalScore carbonScore : Q) : Q :=
  traditionalScore * 0.6 + carbonScore * 0.4.

(** Lines 25-30: the chain that assigns [rating] and [interestAdj]. *)
Definition ratingOf (combinedScore : Q) : string * Q :=
  if combinedScore >=? 80 then ("AAA", -0.02)
  else if combinedScore >=? 70 then ("AA", -0.01)
  else if combinedScore >=? 60 then ("A", 0)
  else if combinedScore >=? 50 then ("BBB", 0.01)
  else ("BB", 0.02).

Definition mockCreditAssessment (entityId entityType : string) : JS Result :=
  let* traditionalScore := randomBetween 45 95 in
  let* carbonScore := randomBetween 40 92 in
  let* esgScore := randomBetween 50 90 in
  let combinedScore := combinedScoreOf traditionalScore carbonScore in
  let rating := fst (ratingOf combinedScore) in
  let interestAdj := snd (ratingOf combinedScore) in
  let* emissions := randomInt 500 4000 in
  let* trend := randomBetween (-0.15) 0.1 in
  let* renewablePct := randomInt 10 75 in
  let* timestamp := now in
  let* leverageDraw := randomBetween 0 1 in
  let* defaultDraw := randomBetween 0 1 in
  let* sdgCount := randomInt 2 4 in
  ret {|
    entity_id := entityId;
    timestamp := timestamp;
    carbon_score := Num.roundTo 100 carbonScore;
    risk_analysis := {|
      traditional_risk := {|
        risk_score := Num.roundTo 100 traditionalScore;
        revenue_assessment := if traditionalScore >? 70 then "strong" else "moderate";
        profitability_assessment := if traditionalScore >? 65 then "strong" else "moderate";
        leverage_assessment := if leverageDraw >? 0.5 then "low" else "moderate";
        liquidity_assessment := if traditionalScore >? 60 then "strong" else "moderate";
        default_history := if defaultDraw >? 0.8 then "concerning" else "clean"
      |};
      carbon_risk := {|
        carbon_risk_score := Num.roundTo 100 carbonScore;
        emission_intensity := if emissions >? 2000 then "high" else "moderate";
        trend_direction := if trend <? 0 then "improving" else "worsening";
        transition_readiness := if renewablePct >? 50 then "strong" else "developing";
        regulatory_risk :=
          if (emissions >? 3000) && (renewablePct <? 30) then "high"
          else if renewablePct <? 50 then "moderate" else "low";
        stranded_asset_risk := if renewablePct <? 20 then "high" else "low"
      |};
      esg_risk := {|
        esg_risk_score := Num.roundTo 100 esgScore;
        environmental_rating :=
          if esgScore >? 80 then "excellent"
          else if esgScore >? 70 then "good" else "fair";
        social_rating := if esgScore >? 75 then "good" else "fair";
        governance_rating := if esgScore >? 70 then "good" else "fair";
        sdg_aligned_count := sdgCount;
        reputational_risk := if esgScore >? 70 then "low" else "moderate"
      |};
      composite_risk_score := Num.roundTo 100 combinedScore;
      credit_score := Num.Math_round (300 + (combinedScore / 100) * 550);
      risk_category :=
        if combinedScore >=? 80 then "low_risk"
        else if combinedScore >=? 60 then "moderate_risk" else "elevated_risk"
    |};
    credit_rating := {|
      rating := rating;
      combined_score := Num.roundTo 100 combinedScore;
      traditional_score := Num.roundTo 100 traditionalScore;
      rating_carbon_score := Num.roundTo 100 carbonScore;
      interest_rate_adjustment := interestAdj
    |};
    recommendations :=
      if carbonScore <? 60 then [
        "Consider implementing renewable energy sources to improve carbon score";
        "Develop a carbon reduction roadmap to access better financing terms";
        "Improve ESG reporting transparency to enhance investor confidence"
      ] else [
        "Maintain current sustainability initiatives";
        "Consider carbon offset programs for remaining emissions"
      ];
    status := "success"
  |}.

End Credit.

(** ** Objects used as string-keyed tables *)

(** What [o[k]] evaluates to for an object literal [o] whose own properties
    are the map [o]: an own property, a property inherited from
    [Object.prototype], or [undefined]. *)
Inductive property (A : Type) : Type :=
| Own (a : A)
| Inherited
| Undefined.
Arguments Own {A} a.
Arguments Inherited {A}.
Arguments Undefined {A}.

Definition Object_prototype_keys : list string :=
  [ "constructor"; "__proto__"; "hasOwnProperty"; "isPrototypeOf";
    "propertyIsEnumerable"; "toLocaleString"; "toString"; "valueOf";
    "__defineGetter__"; "__defineSetter__"; "__lookupGetter__";
    "__lookupSetter__" ].

Definition get {A} (o : gmap string A) (k : string) : property A :=
  match o !! k with
  | Some a => Own a
  | None => if decide (k ∈ Object_prototype_keys) then Inherited else Undefined
  end.

(** ** Portfolio optimisation (lines 88-183) *)

Module Portfolio.

(** An asset object.  The templates of [assetSets] carry the first five
    fields; [generateAssets] spreads a template and adds the others. *)
Record Asset := {
  name : string;
  allocation : Q;
  expected_return : Q;
  volatility : Q;
  annual_co2_tons : Q;
  type : option string;
  value : option Q;
  esg_rating : option string;
  sdg_aligned : option bool
}.

Definition template (name : string) (allocation expected_return volatility annual_co2_tons : Q) : Asset :=
  {| name := name; allocation := allocation; expected_return := expected_return;
     volatility := volatility; annual_co2_tons := annual_co2_tons;
     type := None; value := None; esg_rating := None; sdg_aligned := None |}.

(** Lines 90-124. *)
Definition assetSets (isGreen : bool) : gmap string (list Asset) :=
  {[ "conservative" :=
       if isGreen then [
         template "Green Bonds" 0.50 0.045 0.06 25;
         template "Renewable Energy Funds" 0.25 0.07 0.12 50;
         template "ESG Index Funds" 0.15 0.065 0.10 100;
         template "Sustainable Real Estate" 0.10 0.055 0.09 75
       ] else [
         template "Corporate Bonds" 0.60 0.04 0.05 500;
         template "Large Cap Stocks" 0.25 0.08 0.15 2000;
         template "Real Estate" 0.10 0.06 0.12 1500;
         template "Cash" 0.05 0.01 0.02 0
       ];
     "moderate" :=
       if isGreen then [
         template "ESG Equity Funds" 0.35 0.085 0.14 90;
         template "Green Bonds" 0.30 0.045 0.06 25;
         template "Renewable Infrastructure" 0.20 0.075 0.11 60;
         template "Sustainable Agriculture" 0.15 0.070 0.13 50
       ] else [
         template "Index Funds" 0.40 0.08 0.15 2000;
         template "Bonds" 0.30 0.04 0.06 500;
         template "Stocks" 0.20 0.10 0.18 2500;
         template "Alternatives" 0.10 0.07 0.20 1800
       ];
     "aggressive" :=
       if isGreen then [
         template "Clean Tech Stocks" 0.40 0.13 0.24 75;
         template "Solar Energy Companies" 0.25 0.14 0.26 40;
         template "Electric Vehicle Sector" 0.20 0.12 0.23 100;
         template "Carbon Credit Futures" 0.15 0.10 0.28 25
       ] else [
         template "Growth Stocks" 0.50 0.12 0.25 3000;
         template "Tech Stocks" 0.25 0.15 0.30 2500;
         template "Emerging Markets" 0.15 0.10 0.28 3500;
         template "Commodities" 0.10 0.08 0.22 4000
       ] ]}.

(** The arrow function mapped over the table (lines 126-132). *)
Definition decorate (capital : Q) (isGreen : bool) (asset : Asset) : JS Asset :=
  let type' := if isGreen then "green" else "traditional" in
  let value' := Num.roundTo 100 (capital * allocation asset) in
  let co2 := Num.Math_round (annual_co2_tons asset * allocation asset) in
  if isGreen then
    let* d := randomBetween 0 1 in
    ret {| name := name asset; allocation := allocation asset;
           expected_return := expected_return asset; volatility := volatility asset;
           annual_co2_tons := co2; type := Some type'; value := Some value';
           esg_rating := Some (if d >? 0.5 then "AAA" else "AA");
           sdg_aligned := Some true |}
  else
    ret {| name := name asset; allocation := allocation asset;
           expected_return := expected_return asset; volatility := volatility asset;
           annual_co2_tons := co2; type := Some type'; value := Some value';
           esg_rating := esg_rating asset; sdg_aligned := sdg_aligned asset |}.

(** [generateAssets] (lines 89-133); [capital] and [riskTolerance] are the
    captured parameters of the enclosing function. *)
Definition generateAssets (capital : Q) (riskTolerance : string) (isGreen : bool)
  : JS (list Asset) :=
  match get (assetSets isGreen) riskTolerance with
  | Own table => mapM (decorate capital isGreen) table
  | Inherited =>
      throw (TypeError "assetSets[riskTolerance].map is not a function")
  | Undefined =>
      throw (TypeError "Cannot read properties of undefined (reading 'map')")
  end.

Record Metrics := {
  expectedReturn : Q;
  metrics_volatility : Q;   (* volatility *)
  sharpeRatio : Q;
  carbonFootprint : Q
}.

(** [calcMetrics] (lines 135-141). *)
Definition calcMetrics (assets : list Asset) : Metrics :=
  let expectedReturn :=
    fold_left (fun sum a => sum + expected_return a * allocation a) assets 0 in
  let volatility' :=
    fold_left (fun sum a => sum + volatility a * allocation a) assets 0 in
  let carbonFootprint :=
    fold_left (fun sum a => sum + annual_co2_tons a) assets 0 in
  let sharpeRatio := (expectedReturn - 0.02) / volatility' in
  {| expectedReturn := expectedReturn; metrics_volatility := volatility';
     sharpeRatio := sharpeRatio; carbonFootprint := carbonFootprint |}.

Record PortfolioRecord := {
  portfolio_type : string;
  total_value : Q;
  assets : list Asset;
  portfolio_expected_return : Q;   (* expected_return *)
  portfolio_volatility : Q;        (* volatility *)
  sharpe_ratio : Q;
  annual_carbon_footprint : Q;
  carbon_neutrality_timeline_years : option Q;
  sdg_alignment_score : option Q
}.

Record CarbonComparison := {
  traditional_emissions_tons : Q;
  green_emissions_tons : Q;
  reduction_tons : Q;
  reduction_percentage : Q;
  net_zero_timeline_years : Q
}.

Record PortfolioPair := {
  timestamp : string;
  traditional_portfolio : PortfolioRecord;
  green_portfolio : PortfolioRecord;
  carbon_comparison : CarbonComparison;
  recommendations : string;
  status : string
}.

(** The footprint buckets of lines 170 and 178. *)
Definition timelineYears (carbonFootprint : Q) : Q :=
  if carbonFootprint <=? 100 then 2 else if carbonFootprint <=? 300 then 5 else 8.

Definition mockPortfolioOptimization (capital : Q) (riskTolerance : string) (targetReturn : Q)
  : JS PortfolioPair :=
  let* tradAssets := generateAssets capital riskTolerance false in
  let* greenAssets := generateAssets capital riskTolerance true in
  let tradMetrics := calcMetrics tradAssets in
  let greenMetrics := calcMetrics greenAssets in
  let reduction := carbonFootprint tradMetrics - carbonFootprint greenMetrics in
  let reductionPct := (reduction / carbonFootprint tradMetrics) * 100 in
  let* timestamp := now in
  ret {|
    timestamp := timestamp;
    traditional_portfolio := {|
      portfolio_type := "traditional";
      total_value := capital;
      assets := tradAssets;
      portfolio_expected_return := Num.roundTo 10000 (expectedReturn tradMetrics);
      portfolio_volatility := Num.roundTo 10000 (metrics_volatility tradMetrics);
      sharpe_ratio := Num.roundTo 1000 (sharpeRatio tradMetrics);
      annual_carbon_footprint := Num.Math_round (carbonFootprint tradMetrics);
      carbon_neutrality_timeline_years := None;
      sdg_alignment_score := None
    |};
    green_portfolio := {|
      portfolio_type := "green";
      total_value := capital;
      assets := greenAssets;
      portfolio_expected_return := Num.roundTo 10000 (expectedReturn greenMetrics);
      portfolio_volatility := Num.roundTo 10000 (metrics_volatility greenMetrics);
      sharpe_ratio := Num.roundTo 1000 (sharpeRatio greenMetrics);
      annual_carbon_footprint := Num.Math_round (carbonFootprint greenMetrics);
      carbon_neutrality_timeline_years := Some (timelineYears (carbonFootprint greenMetrics));
      sdg_alignment_score := Some 85
    |};
    carbon_comparison := {|
      traditional_emissions_tons := Num.Math_round (carbonFootprint tradMetrics);
      green_emissions_tons := Num.Math_round (carbonFootprint greenMetrics);
      reduction_tons := Num.Math_round reduction;
      reduction_percentage := Num.roundTo 10 reductionPct;
      net_zero_timeline_years := timelineYears (carbonFootprint greenMetrics)
    |};
    recommendations :=
      "Consider green portfolio for " ++ Num.toString (Num.Math_round reductionPct)
        ++ "% lower carbon footprint with comparable returns";
    status := "success"
  |}.

End Portfolio.

(** ** Micro-loan application (lines 185-242) *)

Module Loan.

Record Assessment := {
  applicant_id : string;
  alternative_credit_score : Q;
  mobile_payment_score : Q;
  green_activity_score : Q;
  social_score : Q;
  approved : bool;
  confidence_level : Q;
  assessment_method : string
}.

Record LoanTerms := {
  approved_amount : Q;
  interest_rate : Q;
  loan_term_months : Z;
  monthly_payment : Q;
  total_repayment : Q;
  total_interest : Q;
  first_payment_date : string;
  special_terms : list string
}.

(** The response.  The data model lets a decision come without terms, so
    the field is optional here; the generator below always fills it. *)
Record LoanDecision := {
  decision_applicant_id : string;   (* applicant_id *)
  timestamp : string;
  assessment : Assessment;
  loan_terms : option LoanTerms;
  approval_status : bool;
  status : string
}.

(** Line 189. *)
Definition compositeScoreOf (mobileScore greenScore socialScore : Q) : Q :=
  mobileScore * 0.5 + greenScore * 0.3 + socialScore * 0.2.

(** Lines 192-197: [interestRate] and [maxAmount] start at [0.08] and
    [amount] and are reassigned by the chain; the pair is their final
    value. *)
Definition termsBand (compositeScore amount : Q) : Q * Q :=
  let interestRate := 0.08 in
  let maxAmount := amount in
  if compositeScore >=? 80 then (0.06, amount * 1.2)
  else if compositeScore >=? 65 then (0.08, maxAmount)
  else if compositeScore >=? 55 then (0.10, amount * 0.8)
  else (0.12, amount * 0.5).

Definition termMonths : Z := 24.

(** Line 202. *)
Definition monthlyPaymentOf (approvedAmount monthlyRate : Q) : Q :=
  approvedAmount * (monthlyRate * Num.Math_pow (1 + monthlyRate) termMonths)
    / (Num.Math_pow (1 + monthlyRate) termMonths - 1).

Definition mockMicroLoan {D : Type}
    (applicantId : string) (amount : Q) (purpose : string) (additionalData : D)
  : JS LoanDecision :=
  let* mobileScore := randomBetween 50 95 in
  let* greenScore := randomBetween 40 90 in
  let* socialScore := randomBetween 55 85 in
  let compositeScore := compositeScoreOf mobileScore greenScore socialScore in
  let approved' := compositeScore >=? 55 in
  let interestRate := fst (termsBand compositeScore amount) in
  let maxAmount := snd (termsBand compositeScore amount) in
  let approvedAmount := Num.Math_min amount maxAmount in
  let monthlyRate := interestRate / 12 in
  let monthlyPayment := monthlyPaymentOf approvedAmount monthlyRate in
  let totalRepayment := monthlyPayment * inject_Z termMonths in
  let* firstPayment := in30days in
  let* timestamp := now in
  let* confidence := randomBetween 0.75 0.92 in
  ret {|
    decision_applicant_id := applicantId;
    timestamp := timestamp;
    assessment := {|
      applicant_id := applicantId;
      alternative_credit_score := Num.roundTo 100 compositeScore;
      mobile_payment_score := Num.roundTo 100 mobileScore;
      green_activity_score := Num.roundTo 100 greenScore;
      social_score := Num.roundTo 100 socialScore;
      approved := approved';
      confidence_level := Num.roundTo 100 confidence;
      assessment_method := "alternative_data"
    |};
    loan_terms := Some {|
      approved_amount := Num.roundTo 100 approvedAmount;
      interest_rate := Num.roundTo 10000 interestRate;
      loan_term_months := termMonths;
      monthly_payment := Num.roundTo 100 monthlyPayment;
      total_repayment := Num.roundTo 100 totalRepayment;
      total_interest := Num.roundTo 100 (totalRepayment - approvedAmount);
      first_payment_date := firstPayment;
      special_terms :=
        if greenScore >? 70 then [
          "Green bonus: 0.5% interest rate reduction for maintaining solar generation";
          "Carbon credit: Earn credits for verified emission reductions";
          "Flexible repayment: Adjust payments based on seasonal income";
          "Financial literacy: Free access to online financial education"
        ] else [
          "Flexible repayment: Adjust payments based on seasonal income";
          "Financial literacy: Free access to online financial education"
        ]
    |};
    approval_status := approved';
    status := "success"
  |}.

End Loan.

(** ** Greenwashing check (lines 244-307) *)

Module Greenwashing.

Record Anomaly := {
  type : string;
  description : string;
  severity : string
}.

Record Report := {
  company_id : string;
  timestamp : string;
  greenwashing_risk_index : Q;
  risk_level : string;
  anomalies : list Anomaly;
  anomaly_count : nat;
  recommendations : list string;
  confidence : Q;
  status : string
}.

(** Lines 250-278: the three rule checks, threading [anomalies] and
    [riskFactors]. *)
Definition ruleChecks (envScore emissions renewablePct trend : Q) : list Anomaly * Q :=
  (let s0 : list Anomaly * Q := ([], 0) in
  let s1 :=
    if (envScore >? 80) && (emissions >? 3000) then
      (fst s0 ++ [ {| type := "high_score_high_emissions";
                      description := "Environmental score is high but emissions are substantial";
                      severity := "medium" |} ],
       snd s0 + 2)
    else s0 in
  let s2 :=
    if (envScore >? 70) && (renewablePct <? 20) then
      (fst s1 ++ [ {| type := "score_renewable_mismatch";
                      description := "High environmental score but low renewable energy usage";
                      severity := "high" |} ],
       snd s1 + 3)
    else s1 in
  if (trend >? 0.05) && (envScore >? 75) then
    (fst s2 ++ [ {| type := "increasing_emissions_high_score";
                    description := "Emissions increasing while maintaining high environmental score";
                    severity := "high" |} ],
     snd s2 + 3)
  else s2)%list.

(** Line 280, with the random addend made explicit. *)
Definition riskIndexOf (riskFactors addend : Q) : Q :=
  Num.Math_min 100 (riskFactors * 15 + addend).

(** Line 281. *)
Definition riskLevelOf (riskIndex : Q) : string :=
  if riskIndex >? 60 then "high" else if riskIndex >? 30 then "moderate" else "low".

(** Lines 283-294: three independent tests, each pushing onto the list. *)
Definition recommendationsOf (riskIndex : Q) : list string :=
  (let r0 : list string := [] in
  let r1 :=
    if riskIndex >? 50 then
      r0 ++ [ "Request third-party verification of carbon claims";
              "Conduct detailed supply chain emissions audit" ]
    else r0 in
  let r2 :=
    if riskIndex >? 30 then r1 ++ [ "Monitor emissions data more frequently" ]
    else r1 in
  if riskIndex <=? 30 then
    r2 ++ [ "Continue current monitoring practices";
            "Consider publishing detailed sustainability reports" ]
  else r2)%list.

Definition mockGreenwashingCheck (companyId : string) : JS Report :=
  let* envScore := randomInt 50 95 in
  let* emissions := randomInt 500 4000 in
  let* renewablePct := randomInt 10 70 in
  let* trend := randomBetween (-0.1) 0.1 in
  let anomalies' := fst (ruleChecks envScore emissions renewablePct trend) in
  let riskFactors := snd (ruleChecks envScore emissions renewablePct trend) in
  let* addend := randomInt 0 20 in
  let riskIndex := riskIndexOf riskFactors addend in
  let riskLevel := riskLevelOf riskIndex in
  let recommendations' := recommendationsOf riskIndex in
  let* timestamp := now in
  let* confidenceDraw := randomBetween 0.75 0.95 in
  ret {|
    company_id := companyId;
    timestamp := timestamp;
    greenwashing_risk_index := riskIndex;
    risk_level := riskLevel;
    anomalies := anomalies';
    anomaly_count := length anomalies';
    recommendations := recommendations';
    confidence := Num.roundTo 100 confidenceDraw;
    status := "success"
  |}.

End Greenwashing.

(** ** System status (mockData.js, lines 6-17) *)

Module Status.

Record Agents := {
  data_collection : string;
  risk_assessment : string;
  portfolio_optimization : string;
  inclusion : string
}.

Record SystemStatus := {
  status : string;
  timestamp : string;
  agents : Agents;
  queue_size : Q;
  cache_size : Q
}.

Definition mockSystemStatus : JS SystemStatus :=
  let* timestamp := now in
  let* queue := randomInt 0 10 in
  let* cache := randomInt 50 200 in
  ret {|
    status := "operational";
    timestamp := timestamp;
    agents := {|
      data_collection := "active";
      risk_assessment := "active";
      portfolio_optimization := "active";
      inclusion := "active"
    |};
    queue_size := queue;
    cache_size := cache
  |}.

End Status.

(** ** View helpers *)

(** [x || 0] on a number. *)
Definition orZero (x : Q) : Q := if Qeq_bool x 0 then 0 else x.

(** Helpers of the credit view (components/CreditAssessment.js, lines
    30-67). *)
Module CreditView.

Record RatingConfig := {
  color : string;
  bg : string;
  label : string
}.

Definition configs : gmap string RatingConfig :=
  {[ "AAA" := {| color := "#00ff88"; bg := "rgba(0,255,136,0.15)"; label := "EXCELLENT" |};
     "AA" := {| color := "#00d4ff"; bg := "rgba(0,212,255,0.15)"; label := "VERY_GOOD" |};
     "A" := {| color := "#a855f7"; bg := "rgba(168,85,247,0.15)"; label := "GOOD" |};
     "BBB" := {| color := "#fbbf24"; bg := "rgba(251,191,36,0.15)"; label := "FAIR" |};
     "BB" := {| color := "#ef4444"; bg := "rgba(239,68,68,0.15)"; label := "BELOW_AVG" |} ]}.

(** [configs[rating] || configs['BBB']]: an own entry and an inherited
    member are both truthy and are returned as they are; only [undefined]
    falls through to the right operand. *)
Definition getRatingConfig (rating : string) : property RatingConfig :=
  match get configs rating with
  | Undefined => get configs "BBB"
  | found => found
  end.

Record RadarPoint := {
  subject : string;
  value : Q;
  fullMark : Q
}.

(** [getRadarData]; the argument is [None] for a null result.  The optional
    chains of the source go through fields that a [Credit.Result] always
    has. *)
Definition getRadarData (result : option Credit.Result) : list RadarPoint :=
  match result with
  | None => []
  | Some result =>
      let ra := Credit.risk_analysis result in
      [ {| subject := "financial";
           value := orZero (Credit.risk_score (Credit.traditional_risk ra));
           fullMark := 100 |};
        {| subject := "carbon";
           value := orZero (Credit.carbon_score result);
           fullMark := 100 |};
        {| subject := "esg";
           value := orZero (Credit.esg_risk_score (Credit.esg_risk ra));
           fullMark := 100 |};
        {| subject := "regulatory";
           value := orZero (Credit.carbon_risk_score (Credit.carbon_risk ra));
           fullMark := 100 |};
        {| subject := "transition";
           value :=
             if String.eqb (Credit.transition_readiness (Credit.carbon_risk ra)) "strong"
             then 85 else 55;
           fullMark := 100 |} ]
  end.

Definition getScoreColor (score : Q) : string :=
  if score >=? 80 then "#00ff88"
  else if score >=? 60 then "#00d4ff"
  else if score >=? 40 then "#fbbf24"
  else "#ef4444".

End CreditView.

(** Helpers of the portfolio view (PortfolioOptimizer component). *)
Module PortfolioView.

Record ProjectionRow := {
  year : string;
  traditional : Q;
  green : Q;
  net_zero : Q
}.

(** The loop of [getCarbonProjection]: [n] iterations remain, [i] is the
    loop counter, [trad] and [green] the running emissions and [years] the
    rows pushed so far. *)
Fixpoint projectionLoop (n : nat) (i : Z) (trad green : Q) (years : list ProjectionRow)
  : list ProjectionRow :=
  match n with
  | O => years
  | S n' =>
      let years' :=
        (years ++ [ {| year := "Y" ++ pretty i;
                       traditional := Num.Math_round trad;
                       green := Num.Math_round green;
                       net_zero := 0 |} ])%list in
      projectionLoop n' (i + 1)%Z (trad * 0.95) (green * 0.85) years'
  end.

(** [getCarbonProjection]; [result] is the component state, [None] while it
    is null.  The loop runs for [i] from 0 to 10. *)
Definition getCarbonProjection (result : option Portfolio.PortfolioPair)
  : list ProjectionRow :=
  match result with
  | None => []
  | Some result =>
      let trad := Portfolio.traditional_emissions_tons (Portfolio.carbon_comparison result) in
      let green := Portfolio.green_emissions_tons (Portfolio.carbon_comparison result) in
      projectionLoop 11 0 trad green []
  end.

End PortfolioView.

(** Helpers of the greenwashing view (GreenwashingDetector component). *)
Module GreenwashingView.

Definition colors : gmap string string :=
  {[ "high" := "#ef4444"; "moderate" := "#fbbf24"; "low" := "#00ff88" ]}.

(** [colors[level] || '#00ff88']: an empty string would be falsy; an
    inherited member is truthy and returned as it is. *)
Definition getRiskColor (level : string) : property string :=
  match get colors level with
  | Own c => if String.eqb c "" then Own "#00ff88" else Own c
  | Inherited => Inherited
  | Undefined => Own "#00ff88"
  end.

Record GaugeSlice := {
  name : string;
  value : Q
}.

Definition getRiskGaugeData (riskIndex : Q) : list GaugeSlice :=
  [ {| name := "risk"; value := riskIndex |};
    {| name := "safe"; value := 100 - riskIndex |} ].

End GreenwashingView.

(** ** Dashboard data (Dashboard component) *)

Module Dashboard.

Record TrendRow := {
  month : string;
  emissions : Q;
  target : Q;
  offset : Q
}.

Definition months : list string :=
  [ "Jan"; "Feb"; "Mar"; "Apr"; "May"; "Jun"; "Jul"; "Aug"; "Sep"; "Oct"; "Nov"; "Dec" ].

(** The callback of [months.map((month, i) => ...)]. *)
Definition trendRow (month : string) (i : Q) : JS TrendRow :=
  let* u := random in
  let emissions' := Qmax 100 (500 - i * 30 + u * 50) in
  let target' := 500 - i * 35 in
  let* v := random in
  ret {| month := month; emissions := emissions'; target := target';
         offset := 50 + i * 10 + v * 20 |}.

(** [Array.prototype.map] with the index passed to the callback. *)
Fixpoint mapMi {A B} (f : A -> Q -> JS B) (i : Z) (l : list A) : JS (list B) :=
  match l with
  | [] => ret []
  | a :: l' =>
      let* b := f a (inject_Z i) in
      let* bs := mapMi f (i + 1)%Z l' in
      ret (b :: bs)
  end.

Definition generateCarbonTrendData : JS (list TrendRow) :=
  mapMi trendRow 0 months.

Record Stats := {
  totalAssessments : Q;
  carbonReduced : Q;
  greenInvestments : Q;
  loansApproved : Q
}.

(** The initial state of [stats]. *)
Definition initialStats : Stats :=
  {| totalAssessments := 12847; carbonReduced := 523000;
     greenInvestments := 2100000000; loansApproved := 8934 |}.

(** The state update run by the five-second timer. *)
Definition tick (prev : Stats) : JS Stats :=
  let* u := random in
  let* v := random in
  ret {| totalAssessments := totalAssessments prev + Num.Math_floor (u * 3);
         carbonReduced := carbonReduced prev + Num.Math_floor (v * 100);
         greenInvestments := greenInvestments prev;
         loansApproved := loansApproved prev |}.

End Dashboard.

(** ** Sample worlds and label groups used in the statements *)

Definition world_of (draws : nat -> Q) : World :=
  {| Math_random := draws;
     Date_toISOString := "2024-03-01T09:00:00.000Z";
     Date_in30days := "2024-03-31" |}.

(** Every draw is 0. *)
Definition world_low : World := world_of (fun _ => 0).

(** The first three draws are 0, every later one is 0.9. *)
Definition world_low_then_high : World :=
  world_of (fun i => if Nat.ltb i 3 then 0 else 0.9).

(** The draws that give traditional 90 and carbon 85, then 0. *)
Definition world_acme : World :=
  world_of (fun i => match i with O => 0.9 | 1%nat => 45 # 52 | _ => 0 end).

(** The qualitative labels and bands of a credit response that are computed
    from the traditional, carbon and ESG scores. *)
Definition primary_labels (r : Credit.Result) : list string :=
  let ra := Credit.risk_analysis r in
  [ Credit.revenue_assessment (Credit.traditional_risk ra);
    Credit.profitability_assessment (Credit.traditional_risk ra);
    Credit.liquidity_assessment (Credit.traditional_risk ra);
    Credit.environmental_rating (Credit.esg_risk ra);
    Credit.social_rating (Credit.esg_risk ra);
    Credit.governance_rating (Credit.esg_risk ra);
    Credit.reputational_risk (Credit.esg_risk ra);
    Credit.risk_category ra;
    Credit.rating (Credit.credit_rating r) ].

(** The remaining qualitative labels of a credit response. *)
Definition secondary_labels (r : Credit.Result) : list string :=
  let ra := Credit.risk_analysis r in
  [ Credit.leverage_assessment (Credit.traditional_risk ra);
    Credit.default_history (Credit.traditional_risk ra);
    Credit.emission_intensity (Credit.carbon_risk ra);
    Credit.trend_direction (Credit.carbon_risk ra);
    Credit.transition_readiness (Credit.carbon_risk ra);
    Credit.regulatory_risk (Credit.carbon_risk ra);
    Credit.stranded_asset_risk (Credit.carbon_risk ra) ].

(** Two worlds give the same values to draws [k1 + i] and [k2 + i], for
    every [i] below [n]. *)
Definition same_draws (n : nat) (w1 : World) (k1 : nat) (w2 : World) (k2 : nat) : Prop :=
  forall i, (i < n)%nat -> Math_random w1 (i + k1) == Math_random w2 (i + k2).

(** The keys of [assetSets]. *)
Definition tiers : list string := ["conservative"; "moderate"; "aggressive"].

(** The sum of the allocation fractions of a list of assets, taken the way
    [calcMetrics] takes its sums. *)
Definition allocationSum (assets : list Portfolio.Asset) : Q :=
  fold_left (fun sum a => sum + Portfolio.allocation a) assets 0.


(** The sum of a list of numbers. *)
Definition Qsum (l : list Q) : Q := fold_left Qplus l 0.

(** Everything a portfolio response says apart from its timestamp, the
    capital and the assets themselves: the aggregate figures of the two
    portfolios, the carbon comparison and the recommendation. *)
Definition summary (r : Portfolio.PortfolioPair) :=
  let tp := Portfolio.traditional_portfolio r in
  let gp := Portfolio.green_portfolio r in
  ( ( Portfolio.portfolio_type tp, Portfolio.portfolio_expected_return tp,
      Portfolio.portfolio_volatility tp, Portfolio.sharpe_ratio tp,
      Portfolio.annual_carbon_footprint tp,
      Portfolio.carbon_neutrality_timeline_years tp, Portfolio.sdg_alignment_score tp ),
    ( Portfolio.portfolio_type gp, Portfolio.portfolio_expected_return gp,
      Portfolio.portfolio_volatility gp, Portfolio.sharpe_ratio gp,
      Portfolio.annual_carbon_footprint gp,
      Portfolio.carbon_neutrality_timeline_years gp, Portfolio.sdg_alignment_score gp ),
    Portfolio.carbon_comparison r,
    Portfolio.recommendations r,
    Portfolio.status r ).

(** What [generateAssets] makes of a row of its table. *)
Definition decorated (capital : Q) (isGreen : bool) (row a : Portfolio.Asset) : Prop :=
  Portfolio.name a = Portfolio.name row /\
  Portfolio.allocation a = Portfolio.allocation row /\
  Portfolio.expected_return a = Portfolio.expected_return row /\
  Portfolio.volatility a = Portfolio.volatility row /\
  Portfolio.annual_co2_tons a
  = Num.Math_round (Portfolio.annual_co2_tons row * Portfolio.allocation row) /\
  Portfolio.type a = Some (if isGreen then "green" else "traditional") /\
  Portfolio.value a = Some (Num.roundTo 100 (capital * Portfolio.allocation row)) /\
  (if isGreen
   then (Portfolio.esg_rating a = Some "AAA" \/ Portfolio.esg_rating a = Some "AA") /\
        Portfolio.sdg_aligned a = Some true
   else Portfolio.esg_rating a = None /\ Portfolio.sdg_aligned a = None).

(** The row of [getCarbonProjection] for year [i], from the emissions
    [trad] and [green] of year 0. *)
Definition projectionRow (trad green : Q) (i : nat) : PortfolioView.ProjectionRow :=
  {| PortfolioView.year := "Y" ++ pretty (Z.of_nat i);
     PortfolioView.traditional := Num.Math_round (trad * 0.95 ^ Z.of_nat i);
     PortfolioView.green := Num.Math_round (green * 0.85 ^ Z.of_nat i);
     PortfolioView.net_zero := 0 |}.

(** The points an anomaly adds to the risk-factor counter: 2 for severity
    "medium", 3 for "high". *)
Definition anomaly_weight (a : Greenwashing.Anomaly) : Q :=
  if String.eqb (Greenwashing.severity a) "medium" then 2
  else if String.eqb (Greenwashing.severity a) "high" then 3
  else 0.

(** What a row of the trend chart looks like for the month [mon] with number
    [i], when its two draws come from the unit interval. *)
Definition trend_row_ok (mon : string) (i : Q) (row : Dashboard.TrendRow) : Prop :=
  Dashboard.month row = mon /\
  Dashboard.target row == 500 - i * 35 /\
  (500 - i * 30 <= Dashboard.emissions row /\ Dashboard.emissions row <= 550 - i * 30) /\
  100 < Dashboard.emissions row /\
  Dashboard.target row <= Dashboard.emissions row /\
  (50 + i * 10 <= Dashboard.offset row /\ Dashboard.offset row <= 70 + i * 10).

(** * Properties *)

(** ** Comparisons and rounding *)

Section Comparisons.

Variables x y : Q.

Lemma geb_true : (x >=? y) = true <-> y <= x.
Proof. unfold Num.geb. apply Qle_bool_iff. Qed.

Lemma geb_false : (x >=? y) = false <-> x < y.
Proof.
  unfold Num.geb. rewrite <- not_true_iff_false, Qle_bool_iff.
  split; [apply Qnot_le_lt | apply Qlt_not_le].
Qed.

Lemma leb_true : (x <=? y) = true <-> x <= y.
Proof. unfold Num.leb. apply Qle_bool_iff. Qed.

Lemma leb_false : (x <=? y) = false <-> y < x.
Proof.
  unfold Num.leb. rewrite <- not_true_iff_false, Qle_bool_iff.
  split; [apply Qnot_le_lt | apply Qlt_not_le].
Qed.

Lemma gtb_true : (x >? y) = true <-> y < x.
Proof.
  unfold Num.gtb. rewrite negb_true_iff, <- not_true_iff_false, Qle_bool_iff.
  split; [apply Qnot_le_lt | apply Qlt_not_le].
Qed.

Lemma gtb_false : (x >? y) = false <-> x <= y.
Proof. unfold Num.gtb. rewrite negb_false_iff. apply Qle_bool_iff. Qed.

Lemma ltb_true : (x <? y) = true <-> x < y.
Proof.
  unfold Num.ltb. rewrite negb_true_iff, <- not_true_iff_false, Qle_bool_iff.
  split; [apply Qnot_le_lt | apply Qlt_not_le].
Qed.

Lemma ltb_false : (x <? y) = false <-> y <= x.
Proof. unfold Num.ltb. rewrite negb_false_iff. apply Qle_bool_iff. Qed.

End Comparisons.

(** Case analysis on every comparison of the goal, each case recorded as an
    order fact. *)
Ltac cmp_cases :=
  repeat match goal with
  | |- context [ ?a >=? ?b ] =>
      let E := fresh "E" in
      destruct (a >=? b) eqn:E; [apply geb_true in E | apply geb_false in E]
  | |- context [ ?a <=? ?b ] =>
      let E := fresh "E" in
      destruct (a <=? b) eqn:E; [apply leb_true in E | apply leb_false in E]
  | |- context [ ?a >? ?b ] =>
      let E := fresh "E" in
      destruct (a >? b) eqn:E; [apply gtb_true in E | apply gtb_false in E]
  | |- context [ ?a <? ?b ] =>
      let E := fresh "E" in
      destruct (a <? b) eqn:E; [apply ltb_true in E | apply ltb_false in E]
  end.

Instance geb_proper : Proper (Qeq ==> Qeq ==> eq) Num.geb.
Proof. intros a b Hab c d Hcd. unfold Num.geb. now rewrite Hab, Hcd. Qed.

Instance gtb_proper : Proper (Qeq ==> Qeq ==> eq) Num.gtb.
Proof. intros a b Hab c d Hcd. unfold Num.gtb. now rewrite Hab, Hcd. Qed.

Instance ltb_proper : Proper (Qeq ==> Qeq ==> eq) Num.ltb.
Proof. intros a b Hab c d Hcd. unfold Num.ltb. now rewrite Hab, Hcd. Qed.

Instance leb_proper : Proper (Qeq ==> Qeq ==> eq) Num.leb.
Proof. intros a b Hab c d Hcd. unfold Num.leb. now rewrite Hab, Hcd. Qed.



(** An integer is a fixed point of the rounding idiom. *)
Lemma roundTo_exact (k x : Q) (n : Z) :
  0 < k -> x * k == inject_Z n -> Num.roundTo k x == x.
Proof.
  intros Hk Hn. unfold Num.roundTo, Num.Math_round.
  assert (Hf : Qfloor (x * k + 0.5) = n).
  { rewrite Hn. symmetry. apply Z.le_antisymm.
    - assert (H0 : inject_Z n <= inject_Z n + 0.5) by lra.
      apply Qfloor_resp_le in H0. now rewrite Qfloor_Z in H0.
    - pose proof (Qfloor_le (inject_Z n + 0.5)) as Hle.
      assert (Hlt : inject_Z (Qfloor (inject_Z n + 0.5)) < inject_Z (n + 1)).
      { rewrite inject_Z_plus. change (inject_Z 1) with 1. lra. }
      rewrite <- Zlt_Qlt in Hlt. lia. }
  rewrite Hf, <- Hn. field. lra.
Qed.

(** Unfolds the monadic plumbing of a generator applied to a world. *)
Ltac run_js := cbv [bind ret throw random randomBetween randomInt now in30days].

(** The sample worlds draw from the unit interval. *)
Lemma world_low_unit : unit_draws world_low.
Proof. intros i. split; [apply Qle_refl | reflexivity]. Qed.

Lemma world_low_then_high_unit : unit_draws world_low_then_high.
Proof.
  intros i. unfold world_low_then_high, world_of. cbn [Math_random].
  destruct (Nat.ltb i 3); split; solve [apply Qle_refl | reflexivity | discriminate].
Qed.

(** ** Credit assessment *)



Lemma geb_eq_l (a b : Q) : a == b -> forall c, (a >=? c) = (b >=? c).
Proof. intros H c. now rewrite H. Qed.

Lemma gtb_eq_l (a b : Q) : a == b -> forall c, (a >? c) = (b >? c).
Proof. intros H c. now rewrite H. Qed.

Lemma ltb_eq_l (a b : Q) : a == b -> forall c, (a <? c) = (b <? c).
Proof. intros H c. now rewrite H. Qed.

Lemma leb_eq_l (a b : Q) : a == b -> forall c, (a <=? c) = (b <=? c).
Proof. intros H c. now rewrite H. Qed.

(** Replaces [a] by [b] on the left of every comparison of the goal. *)
Ltac cmp_rewrite H :=
  rewrite ?(geb_eq_l _ _ H), ?(gtb_eq_l _ _ H), ?(ltb_eq_l _ _ H), ?(leb_eq_l _ _ H).

Lemma ratingOf_proper : Proper (Qeq ==> eq) Credit.ratingOf.
Proof. intros a b H. unfold Credit.ratingOf. cmp_rewrite H. reflexivity. Qed.

Lemma randomInt_value_proper (u v min max : Q) :
  u == v -> Num.Math_floor (u * (max - min) + min) == Num.Math_floor (v * (max - min) + min).
Proof. intros H. unfold Num.Math_floor. now rewrite H. Qed.

(** C2, as stated, fails: two calls with the same parameters, clock and
    three primary draws differ in leverage assessment, default history,
    emission intensity, trend direction and transition readiness, because
    these come from draws of their own. *)
Lemma credit_sublabels_not_fixed_by_primary_draws :
  unit_draws world_low /\ unit_draws world_low_then_high /\
  same_draws 3 world_low 0 world_low_then_high 0 /\
  Date_toISOString world_low = Date_toISOString world_low_then_high /\
  exists r1 r2,
    Credit.mockCreditAssessment "ACME" "company" world_low 0%nat = Returns r1 9%nat /\
    Credit.mockCreditAssessment "ACME" "company" world_low_then_high 0%nat = Returns r2 9%nat /\
    secondary_labels r1
      = ["moderate"; "clean"; "moderate"; "improving"; "developing"; "moderate"; "high"] /\
    secondary_labels r2
      = ["low"; "concerning"; "high"; "worsening"; "strong"; "low"; "low"] /\
    secondary_labels r1 <> secondary_labels r2.
Proof.
  split; [exact world_low_unit |]. split; [exact world_low_then_high_unit |].
  split; [| split; [reflexivity |]].
  - intros i Hi. destruct i as [| [| [| i]]]; [reflexivity .. | lia].
  - eexists. eexists.
    split; [vm_compute; reflexivity |].
    split; [vm_compute; reflexivity |].
    split; [vm_compute; reflexivity |].
    split; [vm_compute; reflexivity |].
    vm_compute. discriminate.
Qed.

(** C2, amended.  Two calls of [mockCreditAssessment] always return.  When
    they agree on the three score draws (traditional, carbon, ESG), they agree
    on the revenue, profitability and liquidity assessments, the
    environmental, social and governance ratings, the reputational risk, the
    risk category, the rating, the interest-rate adjustment and the
    recommendations.  The leverage assessment, the default history, the
    emission intensity, the trend direction, the transition readiness, the
    regulatory risk and the stranded-asset risk are computed from the five
    draws that follow (emissions, trend, renewable share, and one draw each for
    leverage and default history): two calls agree on them when they agree on
    those five draws. *)
Theorem credit_labels_determined_by_their_draws
    (id ty : string) (w1 w2 : World) (k1 k2 : nat) :
  exists r1 r2,
    Credit.mockCreditAssessment id ty w1 k1 = Returns r1 (9 + k1)%nat /\
    Credit.mockCreditAssessment id ty w2 k2 = Returns r2 (9 + k2)%nat /\
    (same_draws 3 w1 k1 w2 k2 ->
       primary_labels r1 = primary_labels r2 /\
       Credit.interest_rate_adjustment (Credit.credit_rating r1)
         = Credit.interest_rate_adjustment (Credit.credit_rating r2) /\
       Credit.recommendations r1 = Credit.recommendations r2) /\
    (same_draws 5 w1 (3 + k1) w2 (3 + k2) -> secondary_labels r1 = secondary_labels r2).
Proof.
  unfold Credit.mockCreditAssessment. run_js.
  eexists. eexists.
  split; [reflexivity |]. split; [reflexivity |].
  unfold primary_labels, secondary_labels.
  cbn [Credit.risk_analysis Credit.traditional_risk Credit.carbon_risk Credit.esg_risk
       Credit.credit_rating Credit.recommendations Credit.interest_rate_adjustment
       Credit.revenue_assessment Credit.profitability_assessment
       Credit.liquidity_assessment Credit.environmental_rating Credit.social_rating
       Credit.governance_rating Credit.reputational_risk Credit.risk_category
       Credit.rating Credit.leverage_assessment Credit.default_history
       Credit.emission_intensity Credit.trend_direction Credit.transition_readiness
       Credit.regulatory_risk Credit.stranded_asset_risk].
  split; intros H.
  - pose proof (H 0%nat ltac:(lia)) as H0.
    pose proof (H 1%nat ltac:(lia)) as H1.
    pose proof (H 2%nat ltac:(lia)) as H2.
    cbn [Nat.add] in H0, H1, H2.
    assert (T : Math_random w1 k1 * (95 - 45) + 45 == Math_random w2 k2 * (95 - 45) + 45)
      by (now rewrite H0).
    assert (C : Math_random w1 (S k1) * (92 - 40) + 40 == Math_random w2 (S k2) * (92 - 40) + 40)
      by (now rewrite H1).
    assert (G : Math_random w1 (S (S k1)) * (90 - 50) + 50 == Math_random w2 (S (S k2)) * (90 - 50) + 50)
      by (now rewrite H2).
    assert (B : Credit.combinedScoreOf (Math_random w1 k1 * (95 - 45) + 45)
                  (Math_random w1 (S k1) * (92 - 40) + 40)
                == Credit.combinedScoreOf (Math_random w2 k2 * (95 - 45) + 45)
                     (Math_random w2 (S k2) * (92 - 40) + 40))
      by (unfold Credit.combinedScoreOf; now rewrite T, C).
    rewrite (ratingOf_proper _ _ B).
    cmp_rewrite T. cmp_rewrite C. cmp_rewrite G. cmp_rewrite B.
    repeat split.
  - pose proof (H 0%nat ltac:(lia)) as H3.
    pose proof (H 1%nat ltac:(lia)) as H4.
    pose proof (H 2%nat ltac:(lia)) as H5.
    pose proof (H 3%nat ltac:(lia)) as H6.
    pose proof (H 4%nat ltac:(lia)) as H7.
    cbn [Nat.add] in H3, H4, H5, H6, H7.
    pose proof (randomInt_value_proper _ _ 500 4000 H3) as E.
    pose proof (randomInt_value_proper _ _ 10 75 H5) as R.
    assert (D : Math_random w1 (S (S (S (S k1)))) * (0.1 - -0.15) + -0.15
                == Math_random w2 (S (S (S (S k2)))) * (0.1 - -0.15) + -0.15)
      by (now rewrite H4).
    assert (L : Math_random w1 (S (S (S (S (S (S k1)))))) * (1 - 0) + 0
                == Math_random w2 (S (S (S (S (S (S k2)))))) * (1 - 0) + 0)
      by (now rewrite H6).
    assert (F : Math_random w1 (S (S (S (S (S (S (S k1))))))) * (1 - 0) + 0
                == Math_random w2 (S (S (S (S (S (S (S k2))))))) * (1 - 0) + 0)
      by (now rewrite H7).
    cmp_rewrite E. cmp_rewrite R. cmp_rewrite D. cmp_rewrite L. cmp_rewrite F.
    reflexivity.
Qed.

Lemma credit_labels_determined_by_their_draws_witness :
  same_draws 3 world_low 0 world_low_then_high 0 /\
  exists r1 r2,
    Credit.mockCreditAssessment "ACME" "company" world_low 0%nat = Returns r1 9%nat /\
    Credit.mockCreditAssessment "ACME" "company" world_low_then_high 0%nat = Returns r2 9%nat /\
    primary_labels r1 = primary_labels r2.
Proof.
  assert (S3 : same_draws 3 world_low 0 world_low_then_high 0).
  { intros i Hi. destruct i as [| [| [| i]]]; [reflexivity .. | lia]. }
  split; [exact S3 |].
  destruct (credit_labels_determined_by_their_draws
              "ACME" "company" world_low world_low_then_high 0 0)
    as (r1 & r2 & E1 & E2 & Hp & _).
  exists r1, r2.
  split; [exact E1 |]. split; [exact E2 |].
  exact (proj1 (Hp S3)).
Defined.

(** ** Portfolio optimisation *)

Lemma tier_cases (t : string) :
  (t ∈ tiers) \/ (forall g, Portfolio.assetSets g !! t = None).
Proof.
  destruct (decide (t ∈ tiers)) as [Hin | Hout]; [left; exact Hin | right].
  intros g. unfold Portfolio.assetSets.
  unfold tiers in Hout. rewrite !not_elem_of_cons in Hout.
  destruct Hout as (H1 & H2 & H3 & _).
  rewrite lookup_insert_ne by congruence.
  rewrite lookup_insert_ne by congruence.
  rewrite lookup_singleton_ne by congruence.
  reflexivity.
Qed.

(** Each of the six tables has four rows whose allocations sum to one, and
    the sums that [calcMetrics] divides by are positive. *)
Lemma assetSets_tables (g : bool) (t : string) :
  t ∈ tiers ->
  exists table,
    Portfolio.assetSets g !! t = Some table /\
    length table = 4%nat /\
    allocationSum table == 1 /\
    0 < fold_left Qplus (map (fun a => Portfolio.volatility a * Portfolio.allocation a) table) 0 /\
    0 < fold_left Qplus
          (map (fun a => Num.Math_round (Portfolio.annual_co2_tons a * Portfolio.allocation a))
               table) 0.
Proof.
  unfold tiers. rewrite !elem_of_cons, elem_of_nil.
  intros [-> | [-> | [-> | []]]]; destruct g;
    (eexists; split; [reflexivity |]; repeat split; vm_compute; reflexivity).
Qed.

Lemma decorate_returns (capital : Q) (g : bool) (asset : Portfolio.Asset) (w : World) (k : nat) :
  exists a,
    Portfolio.decorate capital g asset w k = Returns a ((if g then 1 else 0) + k)%nat /\
    Portfolio.allocation a = Portfolio.allocation asset /\
    Portfolio.expected_return a = Portfolio.expected_return asset /\
    Portfolio.volatility a = Portfolio.volatility asset /\
    Portfolio.annual_co2_tons a
      = Num.Math_round (Portfolio.annual_co2_tons asset * Portfolio.allocation asset).
Proof.
  unfold Portfolio.decorate. destruct g; run_js; eexists; (split; [reflexivity |]);
    repeat split.
Qed.

Lemma mapM_decorate_returns (capital : Q) (g : bool) (table : list Portfolio.Asset) :
  forall (w : World) (k : nat),
  exists l,
    mapM (Portfolio.decorate capital g) table w k
      = Returns l ((if g then length table else 0) + k)%nat /\
    map Portfolio.allocation l = map Portfolio.allocation table /\
    map Portfolio.expected_return l = map Portfolio.expected_return table /\
    map Portfolio.volatility l = map Portfolio.volatility table /\
    map Portfolio.annual_co2_tons l
      = map (fun a => Num.Math_round (Portfolio.annual_co2_tons a * Portfolio.allocation a))
            table.
Proof.
  induction table as [| asset table IH]; intros w k.
  - exists []. destruct g; repeat split.
  - destruct (decorate_returns capital g asset w k) as (a & Ea & A1 & A2 & A3 & A4).
    destruct (IH w ((if g then 1 else 0) + k)%nat) as (l & El & L1 & L2 & L3 & L4).
    exists (a :: l). cbn [mapM map]. unfold bind at 1. rewrite Ea.
    unfold bind at 1. rewrite El. unfold ret.
    split.
    + f_equal. destruct g; cbn [length]; lia.
    + rewrite A1, A2, A3, A4, L1, L2, L3, L4. repeat split.
Qed.

Lemma generateAssets_returns (capital : Q) (t : string) (g : bool)
    (table : list Portfolio.Asset) (w : World) (k : nat) :
  Portfolio.assetSets g !! t = Some table ->
  exists l,
    Portfolio.generateAssets capital t g w k
      = Returns l ((if g then length table else 0) + k)%nat /\
    map Portfolio.allocation l = map Portfolio.allocation table /\
    map Portfolio.expected_return l = map Portfolio.expected_return table /\
    map Portfolio.volatility l = map Portfolio.volatility table /\
    map Portfolio.annual_co2_tons l
      = map (fun a => Num.Math_round (Portfolio.annual_co2_tons a * Portfolio.allocation a))
            table.
Proof.
  intros H. unfold Portfolio.generateAssets, get. rewrite H.
  apply mapM_decorate_returns.
Qed.

Lemma generateAssets_throws (capital : Q) (t : string) (g : bool) (w : World) (k : nat) :
  Portfolio.assetSets g !! t = None ->
  exists msg, Portfolio.generateAssets capital t g w k = Throws (TypeError msg).
Proof.
  intros H. unfold Portfolio.generateAssets, get. rewrite H.
  destruct (decide (t ∈ Object_prototype_keys)); eexists; reflexivity.
Qed.

Lemma allocationSum_map (l : list Portfolio.Asset) :
  allocationSum l = fold_left Qplus (map Portfolio.allocation l) 0.
Proof.
  unfold allocationSum. generalize 0.
  induction l as [| a l IH]; intros q; [reflexivity |].
  cbn [fold_left map]. apply IH.
Qed.

Lemma fold_left_sum_map {A : Type} (f : A -> Q) (l : list A) :
  forall q, fold_left (fun sum a => sum + f a) l q = fold_left Qplus (map f l) q.
Proof. induction l as [| a l IH]; intros q; [reflexivity | apply IH]. Qed.

Lemma map_product_ext (l table : list Portfolio.Asset) :
  map Portfolio.volatility l = map Portfolio.volatility table ->
  map Portfolio.allocation l = map Portfolio.allocation table ->
  map (fun a => Portfolio.volatility a * Portfolio.allocation a) l
    = map (fun a => Portfolio.volatility a * Portfolio.allocation a) table.
Proof.
  revert table. induction l as [| a l IH]; intros [| b table] Hv Ha;
    try discriminate; [reflexivity |].
  cbn [map] in *. injection Hv as Hv1 Hv2. injection Ha as Ha1 Ha2.
  rewrite Hv1, Ha1. f_equal. now apply IH.
Qed.

(** On each of the three tiers the call returns after four draws; the
    allocations of both portfolios sum to one, and the two sums the function
    divides by (the weighted volatility of either portfolio and the footprint
    of the traditional one) are positive. *)
Lemma portfolio_divisors_nonzero (capital : Q) (t : string) (targetReturn : Q)
    (w : World) (k : nat) :
  t ∈ tiers ->
  exists r,
    Portfolio.mockPortfolioOptimization capital t targetReturn w k = Returns r (4 + k)%nat /\
    let trad := Portfolio.assets (Portfolio.traditional_portfolio r) in
    let green := Portfolio.assets (Portfolio.green_portfolio r) in
    allocationSum trad == 1 /\ allocationSum green == 1 /\
    0 < Portfolio.metrics_volatility (Portfolio.calcMetrics trad) /\
    0 < Portfolio.metrics_volatility (Portfolio.calcMetrics green) /\
    0 < Portfolio.carbonFootprint (Portfolio.calcMetrics trad).
Proof.
  intros Ht.
  destruct (assetSets_tables false t Ht) as (tableT & LT & NT & ST & VT & CT).
  destruct (assetSets_tables true t Ht) as (tableG & LG & NG & SG & VG & CG).
  destruct (generateAssets_returns capital t false tableT w k LT)
    as (trad & ET & T1 & T2 & T3 & T4).
  destruct (generateAssets_returns capital t true tableG w (0 + k)%nat LG)
    as (green & EG & G1 & G2 & G3 & G4).
  unfold Portfolio.mockPortfolioOptimization.
  unfold bind at 1. rewrite ET. unfold bind at 1. rewrite EG.
  unfold bind, now, ret. rewrite NG. eexists. split; [reflexivity |].
  cbn [Portfolio.assets Portfolio.traditional_portfolio Portfolio.green_portfolio
       Portfolio.calcMetrics Portfolio.metrics_volatility Portfolio.carbonFootprint].
  rewrite !allocationSum_map, T1, G1, <- !allocationSum_map.
  rewrite !(fold_left_sum_map (fun a => Portfolio.volatility a * Portfolio.allocation a)).
  rewrite (fold_left_sum_map Portfolio.annual_co2_tons).
  rewrite (map_product_ext _ _ T3 T1), (map_product_ext _ _ G3 G1), T4.
  repeat split; assumption.
Qed.

Lemma mockPortfolioOptimization_throws (capital : Q) (t : string) (targetReturn : Q)
    (w : World) (k : nat) :
  t ∉ tiers ->
  exists msg,
    Portfolio.mockPortfolioOptimization capital t targetReturn w k = Throws (TypeError msg).
Proof.
  intros Ht. destruct (tier_cases t) as [Hin | Hnone]; [contradiction |].
  destruct (generateAssets_throws capital t false w k (Hnone false)) as (msg & E).
  exists msg. unfold Portfolio.mockPortfolioOptimization.
  unfold bind at 1. rewrite E. reflexivity.
Qed.



Lemma same_draws_step (n : nat) (w1 : World) (k1 : nat) (w2 : World) (k2 : nat) :
  same_draws (S n) w1 k1 w2 k2 ->
  Math_random w1 k1 == Math_random w2 k2 /\ same_draws n w1 (S k1) w2 (S k2).
Proof.
  intros H. split.
  - apply (H 0%nat). lia.
  - intros i Hi. rewrite <- !Nat.add_succ_comm. apply H. lia.
Qed.

Lemma decorate_same_draws (capital : Q) (g : bool) (asset : Portfolio.Asset)
    (w1 : World) (k1 : nat) (w2 : World) (k2 : nat) :
  (g = true -> Math_random w1 k1 == Math_random w2 k2) ->
  exists a,
    Portfolio.decorate capital g asset w1 k1 = Returns a ((if g then 1 else 0) + k1)%nat /\
    Portfolio.decorate capital g asset w2 k2 = Returns a ((if g then 1 else 0) + k2)%nat.
Proof.
  intros H. unfold Portfolio.decorate. destruct g; run_js.
  - assert (D : Math_random w1 k1 * (1 - 0) + 0 == Math_random w2 k2 * (1 - 0) + 0)
      by (now rewrite (H eq_refl)).
    cmp_rewrite D. eexists. split; reflexivity.
  - eexists. split; reflexivity.
Qed.

(** The decorated rows depend on the world only through the draws they
    consume. *)
Lemma mapM_decorate_same_draws (capital : Q) (g : bool) (table : list Portfolio.Asset) :
  forall (w1 : World) (k1 : nat) (w2 : World) (k2 : nat),
  (g = true -> same_draws (length table) w1 k1 w2 k2) ->
  exists l,
    mapM (Portfolio.decorate capital g) table w1 k1
      = Returns l ((if g then length table else 0) + k1)%nat /\
    mapM (Portfolio.decorate capital g) table w2 k2
      = Returns l ((if g then length table else 0) + k2)%nat.
Proof.
  induction table as [| asset table IH]; intros w1 k1 w2 k2 H.
  - exists []. destruct g; split; reflexivity.
  - assert (H0 : g = true -> Math_random w1 k1 == Math_random w2 k2)
      by (intros Hg; apply (same_draws_step _ _ _ _ _ (H Hg))).
    destruct (decorate_same_draws capital g asset w1 k1 w2 k2 H0) as (a & A1 & A2).
    assert (Hrest : g = true ->
              same_draws (length table) w1 ((if g then 1 else 0) + k1)
                w2 ((if g then 1 else 0) + k2)).
    { intros Hg. subst g. apply (same_draws_step _ _ _ _ _ (H eq_refl)). }
    destruct (IH _ _ _ _ Hrest) as (l & E1 & E2).
    exists (a :: l). cbn [mapM]. unfold bind at 1 3. rewrite A1, A2.
    unfold bind at 1 2. rewrite E1, E2. unfold ret.
    split; f_equal; destruct g; cbn [length]; lia.
Qed.

(** C9.  The target return plays no part in the result.  Two calls with the
    same capital and tier whose worlds agree on the clock and on the four
    draws the call consumes have the same outcome whatever their two target
    returns are: on the three tiers they return the same response, on any
    other tier they throw the same error.  In particular, in one world the
    outcome does not change with the target return. *)
Theorem portfolio_ignores_target_return
    (capital : Q) (riskTolerance : string) (targetReturn1 targetReturn2 : Q)
    (w1 w2 : World) (k1 k2 : nat) :
  (same_draws 4 w1 k1 w2 k2 ->
   Date_toISOString w1 = Date_toISOString w2 ->
   (riskTolerance ∈ tiers ->
      exists r,
        Portfolio.mockPortfolioOptimization capital riskTolerance targetReturn1 w1 k1
          = Returns r (4 + k1)%nat /\
        Portfolio.mockPortfolioOptimization capital riskTolerance targetReturn2 w2 k2
          = Returns r (4 + k2)%nat) /\
   (riskTolerance ∉ tiers ->
      exists e,
        Portfolio.mockPortfolioOptimization capital riskTolerance targetReturn1 w1 k1
          = Throws e /\
        Portfolio.mockPortfolioOptimization capital riskTolerance targetReturn2 w2 k2
          = Throws e)) /\
  Portfolio.mockPortfolioOptimization capital riskTolerance targetReturn1 w1 k1
  = Portfolio.mockPortfolioOptimization capital riskTolerance targetReturn2 w1 k1.
Proof.
  split; [| reflexivity].
  intros Hdraws Hclock. split.
  - intros Hin.
    destruct (assetSets_tables false riskTolerance Hin) as (tableT & LT & _).
    destruct (assetSets_tables true riskTolerance Hin) as (tableG & LG & NG & _).
    destruct (mapM_decorate_same_draws capital false tableT w1 k1 w2 k2
                ltac:(discriminate)) as (trad & T1 & T2).
    rewrite <- NG in Hdraws.
    destruct (mapM_decorate_same_draws capital true tableG w1 (0 + k1) w2 (0 + k2)
                (fun _ => Hdraws)) as (green & G1 & G2).
    rewrite NG in G1, G2.
    unfold Portfolio.mockPortfolioOptimization, Portfolio.generateAssets, get.
    rewrite LT, LG. unfold bind at 1 4. rewrite T1, T2.
    unfold bind at 1 3. rewrite G1, G2.
    unfold bind, now, ret. rewrite Hclock.
    eexists. split; reflexivity.
  - intros Hout.
    destruct (tier_cases riskTolerance) as [Hin | Hnone]; [contradiction |].
    unfold Portfolio.mockPortfolioOptimization, Portfolio.generateAssets, get.
    rewrite (Hnone false). unfold bind at 1 3.
    destruct (decide (riskTolerance ∈ Object_prototype_keys));
      eexists; split; reflexivity.
Qed.

Lemma portfolio_ignores_target_return_witness :
  same_draws 4 world_low 0 world_low 0 /\
  ("moderate" ∈ tiers) /\
  exists r,
    Portfolio.mockPortfolioOptimization 10000 "moderate" 0.05 world_low 0%nat
      = Returns r 4%nat /\
    Portfolio.mockPortfolioOptimization 10000 "moderate" 0.12 world_low 0%nat
      = Returns r 4%nat.
Proof.
  assert (H : same_draws 4 world_low 0 world_low 0) by (intros i _; reflexivity).
  assert (T : "moderate" ∈ tiers) by (unfold tiers; set_solver).
  split; [exact H |]. split; [exact T |].
  exact (proj1 (proj1 (portfolio_ignores_target_return
                         10000 "moderate" 0.05 0.12 world_low world_low 0 0)
                  H eq_refl) T).
Defined.

(** C10.  [mockPortfolioOptimization] returns exactly on the three keys of
    [assetSets].  For any other risk-tolerance string the lookup
    [assetSets[riskTolerance]] yields no table, for the traditional and for
    the green set alike, and the call throws a [TypeError] at [.map] instead
    of returning a response; on each of the three keys it returns one. *)
Theorem portfolio_total_only_on_three_tiers
    (capital : Q) (riskTolerance : string) (targetReturn : Q) (w : World) (k : nat) :
  (riskTolerance ∉ tiers ->
     (forall g, Portfolio.assetSets g !! riskTolerance = None) /\
     (forall g table, get (Portfolio.assetSets g) riskTolerance <> Own table) /\
     exists msg,
       Portfolio.mockPortfolioOptimization capital riskTolerance targetReturn w k
         = Throws (TypeError msg)) /\
  (riskTolerance ∈ tiers ->
     exists r,
       Portfolio.mockPortfolioOptimization capital riskTolerance targetReturn w k
         = Returns r (4 + k)%nat).
Proof.
  split.
  - intros Hout.
    destruct (tier_cases riskTolerance) as [Hin | Hnone]; [contradiction |].
    split; [exact Hnone |]. split.
    + intros g table. unfold get. rewrite Hnone.
      destruct (decide (riskTolerance ∈ Object_prototype_keys)); discriminate.
    + apply mockPortfolioOptimization_throws. exact Hout.
  - intros Hin.
    destruct (portfolio_divisors_nonzero capital riskTolerance targetReturn w k Hin)
      as (r & E & _).
    exists r. exact E.
Qed.

Lemma portfolio_total_only_on_three_tiers_witness :
  ("balanced" ∉ tiers) /\
  exists msg,
    Portfolio.mockPortfolioOptimization 10000 "balanced" 0.08 world_low 0%nat
      = Throws (TypeError msg).
Proof.
  assert (H : "balanced" ∉ tiers).
  { unfold tiers. rewrite !not_elem_of_cons.
    repeat split; [discriminate .. | apply not_elem_of_nil]. }
  split; [exact H |].
  exact (proj2 (proj2 (proj1
           (portfolio_total_only_on_three_tiers 10000 "balanced" 0.08 world_low 0) H))).
Defined.


(** ** Micro-loan application *)

Instance roundTo_proper : Proper (Qeq ==> Qeq ==> Qeq) Num.roundTo.
Proof.
  intros k1 k2 Hk x1 x2 Hx. unfold Num.roundTo, Num.Math_round.
  assert (E : Qfloor (x1 * k1 + 0.5) = Qfloor (x2 * k2 + 0.5))
    by (apply Qfloor_comp; rewrite Hk, Hx; reflexivity).
  rewrite E. apply Qdiv_comp; [reflexivity | exact Hk].
Qed.

(** The four bands of [termsBand]. *)
Lemma termsBand_cases (c amount : Q) :
  (80 <= c /\ Loan.termsBand c amount = (0.06, amount * 1.2)) \/
  (65 <= c /\ c < 80 /\ Loan.termsBand c amount = (0.08, amount)) \/
  (55 <= c /\ c < 65 /\ Loan.termsBand c amount = (0.10, amount * 0.8)) \/
  (c < 55 /\ Loan.termsBand c amount = (0.12, amount * 0.5)).
Proof.
  unfold Loan.termsBand. cmp_cases.
  - left. split; [assumption | reflexivity].
  - right; left. repeat split; assumption.
  - right; right; left. repeat split; assumption.
  - right; right; right. split; [assumption | reflexivity].
Qed.


(** The reported interest rate is the rate of the band: rounding to four
    decimals leaves each of the four rates unchanged. *)
Lemma band_rate_exact (c amount : Q) :
  Num.roundTo 10000 (fst (Loan.termsBand c amount)) == fst (Loan.termsBand c amount).
Proof.
  destruct (termsBand_cases c amount)
    as [(_ & ->) | [(_ & _ & ->) | [(_ & _ & ->) | (_ & ->)]]];
    reflexivity.
Qed.

(** The composite score of a call that starts at draw [k]. *)
Lemma mockMicroLoan_returns {D : Type} (id : string) (amount : Q) (purpose : string)
    (data : D) (w : World) (k : nat) :
  let mobileScore := Math_random w k * (95 - 50) + 50 in
  let greenScore := Math_random w (1 + k)%nat * (90 - 40) + 40 in
  let socialScore := Math_random w (2 + k)%nat * (85 - 55) + 55 in
  let c := Loan.compositeScoreOf mobileScore greenScore socialScore in
  let rate := fst (Loan.termsBand c amount) in
  let A := Num.Math_min amount (snd (Loan.termsBand c amount)) in
  let mp := Loan.monthlyPaymentOf A (rate / 12) in
  exists r lt,
    Loan.mockMicroLoan id amount purpose data w k = Returns r (4 + k)%nat /\
    Loan.loan_terms r = Some lt /\
    Loan.approval_status r = (c >=? 55) /\
    Loan.approved (Loan.assessment r) = (c >=? 55) /\
    Loan.interest_rate lt = Num.roundTo 10000 rate /\
    Loan.approved_amount lt = Num.roundTo 100 A /\
    Loan.loan_term_months lt = 24%Z /\
    Loan.monthly_payment lt = Num.roundTo 100 mp /\
    Loan.total_repayment lt = Num.roundTo 100 (mp * 24) /\
    Loan.total_interest lt = Num.roundTo 100 (mp * 24 - A).
Proof.
  unfold Loan.mockMicroLoan. run_js.
  eexists. eexists. split; [reflexivity |]. repeat split.
Qed.









(** ** Greenwashing check *)


Lemma riskLevelOf_cases (riskIndex : Q) :
  (60 < riskIndex /\ Greenwashing.riskLevelOf riskIndex = "high") \/
  (30 < riskIndex /\ riskIndex <= 60 /\ Greenwashing.riskLevelOf riskIndex = "moderate") \/
  (riskIndex <= 30 /\ Greenwashing.riskLevelOf riskIndex = "low").
Proof.
  unfold Greenwashing.riskLevelOf. cmp_cases.
  - left. split; [assumption | reflexivity].
  - right; left. repeat split; assumption.
  - right; right. split; [assumption | reflexivity].
Qed.

Lemma randomInt_range (u min max : Q) :
  0 <= u -> u < 1 -> min < max ->
  Num.Math_floor min <= Num.Math_floor (u * (max - min) + min) /\
  Num.Math_floor (u * (max - min) + min) < max.
Proof.
  intros H0 H1 Hm. unfold Num.Math_floor. split.
  - rewrite <- Zle_Qle. apply Qfloor_resp_le.
    assert (0 <= u * (max - min)) by (apply Qmult_le_0_compat; lra). lra.
  - eapply Qle_lt_trans; [apply Qfloor_le |].
    assert (u * (max - min) < 1 * (max - min))
      by (apply Qmult_lt_compat_r; lra).
    lra.
Qed.

Lemma mockGreenwashingCheck_returns (companyId : string) (w : World) (k : nat) :
  let envScore := Num.Math_floor (Math_random w k * (95 - 50) + 50) in
  let emissions := Num.Math_floor (Math_random w (1 + k)%nat * (4000 - 500) + 500) in
  let renewablePct := Num.Math_floor (Math_random w (2 + k)%nat * (70 - 10) + 10) in
  let trend := Math_random w (3 + k)%nat * (0.1 - -0.1) + -0.1 in
  let checks := Greenwashing.ruleChecks envScore emissions renewablePct trend in
  let addend := Num.Math_floor (Math_random w (4 + k)%nat * (20 - 0) + 0) in
  let riskIndex := Greenwashing.riskIndexOf (snd checks) addend in
  exists r,
    Greenwashing.mockGreenwashingCheck companyId w k = Returns r (6 + k)%nat /\
    Greenwashing.greenwashing_risk_index r = riskIndex /\
    Greenwashing.risk_level r = Greenwashing.riskLevelOf riskIndex /\
    Greenwashing.recommendations r = Greenwashing.recommendationsOf riskIndex /\
    Greenwashing.anomalies r = fst checks /\
    Greenwashing.anomaly_count r = length (fst checks).
Proof.
  unfold Greenwashing.mockGreenwashingCheck. run_js.
  eexists. split; [reflexivity |]. repeat split.
Qed.



(** C8.  The recommendation thresholds are cumulative.  An index above 50
    yields the two items of the test for 50 followed by the item of the test
    for 30 (so at 55 both tests contribute); an index above 30 and at most 50
    yields the item of the test for 30 alone; an index of at most 30 yields
    exactly the two items of the last test.  The report lists the
    recommendations of its own risk index. *)
Theorem greenwashing_recommendations_cumulative :
  (forall riskIndex : Q,
      (50 < riskIndex ->
         Greenwashing.recommendationsOf riskIndex
         = [ "Request third-party verification of carbon claims";
             "Conduct detailed supply chain emissions audit";
             "Monitor emissions data more frequently" ]) /\
      (30 < riskIndex -> riskIndex <= 50 ->
         Greenwashing.recommendationsOf riskIndex
         = [ "Monitor emissions data more frequently" ]) /\
      (riskIndex <= 30 ->
         Greenwashing.recommendationsOf riskIndex
         = [ "Continue current monitoring practices";
             "Consider publishing detailed sustainability reports" ])) /\
  Greenwashing.recommendationsOf 55
  = [ "Request third-party verification of carbon claims";
      "Conduct detailed supply chain emissions audit";
      "Monitor emissions data more frequently" ] /\
  (forall (companyId : string) (w : World) (k : nat),
      exists r,
        Greenwashing.mockGreenwashingCheck companyId w k = Returns r (6 + k)%nat /\
        Greenwashing.recommendations r
        = Greenwashing.recommendationsOf (Greenwashing.greenwashing_risk_index r)).
Proof.
  split; [| split].
  - intros riskIndex. unfold Greenwashing.recommendationsOf.
    repeat split; intros; cmp_cases; first [reflexivity | lra].
  - reflexivity.
  - intros companyId w k.
    destruct (mockGreenwashingCheck_returns companyId w k) as (r & E & Hi & _ & Hr & _).
    exists r. split; [exact E |]. rewrite Hr, Hi. reflexivity.
Qed.

Lemma greenwashing_recommendations_cumulative_witness :
  50 < 55 /\
  Greenwashing.recommendationsOf 55
  = [ "Request third-party verification of carbon claims";
      "Conduct detailed supply chain emissions audit";
      "Monitor emissions data more frequently" ].
Proof.
  split; [reflexivity |].
  apply (proj1 (proj1 greenwashing_recommendations_cumulative 55)).
  reflexivity.
Defined.


(** * Further properties of the generators and of the view helpers *)

(** ** Random helpers and rounding *)

Lemma Math_round_mono (x y : Q) : x <= y -> Num.Math_round x <= Num.Math_round y.
Proof.
  intros H. unfold Num.Math_round. rewrite <- Zle_Qle.
  apply Qfloor_resp_le. lra.
Qed.

Lemma Math_round_int (n : Z) : Num.Math_round (inject_Z n) == inject_Z n.
Proof.
  pose proof (roundTo_exact 1 (inject_Z n) n ltac:(reflexivity) ltac:(ring)) as H.
  unfold Num.roundTo in H.
  assert (E : inject_Z n * 1 == inject_Z n) by ring.
  unfold Num.Math_round in *. rewrite (Qfloor_comp _ _ (Qplus_comp _ _ E _ _ (Qeq_refl _))) in H.
  rewrite <- H at 2. field.
Qed.

Lemma roundTo_mono (k x y : Q) : 0 < k -> x <= y -> Num.roundTo k x <= Num.roundTo k y.
Proof.
  intros Hk H. unfold Num.roundTo, Qdiv.
  apply Qmult_le_compat_r.
  - apply Math_round_mono. apply Qmult_le_compat_r; lra.
  - apply Qlt_le_weak, Qinv_lt_0_compat, Hk.
Qed.

(** Rounding keeps a number between two bounds that are themselves
    multiples of the rounding step. *)
Lemma roundTo_between (k lo hi x : Q) (nlo nhi : Z) :
  0 < k -> lo * k == inject_Z nlo -> hi * k == inject_Z nhi ->
  lo <= x -> x <= hi -> lo <= Num.roundTo k x /\ Num.roundTo k x <= hi.
Proof.
  intros Hk Hlo Hhi H1 H2. split.
  - rewrite <- (roundTo_exact k lo nlo Hk Hlo). apply roundTo_mono; assumption.
  - rewrite <- (roundTo_exact k hi nhi Hk Hhi). apply roundTo_mono; assumption.
Qed.

Lemma randomBetween_range (u min max : Q) :
  0 <= u -> u < 1 -> min < max ->
  min <= u * (max - min) + min /\ u * (max - min) + min < max.
Proof.
  intros H0 H1 Hm.
  assert (0 <= u * (max - min)) by (apply Qmult_le_0_compat; lra).
  assert (u * (max - min) < 1 * (max - min)) by (apply Qmult_lt_compat_r; lra).
  split; lra.
Qed.

Lemma randomInt_integer_range (w : World) (k : nat) (a b : Z) :
  unit_draws w -> (a < b)%Z ->
  exists n, randomInt (inject_Z a) (inject_Z b) w k = Returns (inject_Z n) (S k) /\
            (a <= n)%Z /\ (n <= b - 1)%Z.
Proof.
  intros Hw Hab. destruct (Hw k) as [H0 H1].
  eexists. split; [reflexivity |].
  assert (Hq : inject_Z a < inject_Z b) by (rewrite <- Zlt_Qlt; exact Hab).
  destruct (randomInt_range _ _ _ H0 H1 Hq) as [Hlo Hhi].
  unfold Num.Math_floor in Hlo, Hhi. rewrite Qfloor_Z in Hlo.
  rewrite <- Zle_Qle in Hlo. rewrite <- Zlt_Qlt in Hhi. lia.
Qed.



(** ** System status *)

(** X2.  [mockSystemStatus] uses two draws; for draws of [0, 1) the queue
    size is an integer from 0 to 9 and the cache size an integer from 50 to
    199, the status is "operational" and the four agents are "active". *)
Theorem system_status_sizes_in_range (w : World) (k : nat) :
  unit_draws w ->
  exists s q c,
    Status.mockSystemStatus w k = Returns s (2 + k)%nat /\
    Status.queue_size s = inject_Z q /\ (0 <= q <= 9)%Z /\
    Status.cache_size s = inject_Z c /\ (50 <= c <= 199)%Z /\
    Status.status s = "operational" /\
    Status.agents s
    = {| Status.data_collection := "active"; Status.risk_assessment := "active";
         Status.portfolio_optimization := "active"; Status.inclusion := "active" |}.
Proof.
  intros Hw.
  destruct (randomInt_integer_range w k 0 10 Hw eq_refl) as (q & Eq & Hq1 & Hq2).
  destruct (randomInt_integer_range w (S k) 50 200 Hw eq_refl) as (c & Ec & Hc1 & Hc2).
  unfold Status.mockSystemStatus.
  unfold bind at 1. unfold now. unfold bind at 1.
  change (randomInt 0 10 w k) with (randomInt (inject_Z 0) (inject_Z 10) w k).
  rewrite Eq. unfold bind at 1.
  change (randomInt 50 200 w (S k)) with (randomInt (inject_Z 50) (inject_Z 200) w (S k)).
  rewrite Ec. unfold ret.
  eexists. exists q, c. split; [reflexivity |].
  cbn [Status.queue_size Status.cache_size Status.status Status.agents].
  repeat split; lia.
Qed.

Lemma system_status_sizes_in_range_witness :
  unit_draws world_low /\
  exists s, Status.mockSystemStatus world_low 0%nat = Returns s 2%nat.
Proof.
  assert (H : unit_draws world_low)
    by (intros i; split; [apply Qle_refl | reflexivity]).
  split; [exact H |].
  destruct (system_status_sizes_in_range world_low 0 H) as (s & _ & _ & E & _).
  exists s. exact E.
Defined.

(** ** Credit assessment: ranges and consistency of the response *)

(** Runs [mockCreditAssessment] and exposes the fields of its response. *)
Ltac run_credit :=
  unfold Credit.mockCreditAssessment; run_js;
  eexists; split; [reflexivity |];
  cbn [Credit.risk_analysis Credit.traditional_risk Credit.carbon_risk Credit.esg_risk
       Credit.credit_rating Credit.recommendations Credit.interest_rate_adjustment
       Credit.revenue_assessment Credit.profitability_assessment
       Credit.liquidity_assessment Credit.environmental_rating Credit.social_rating
       Credit.governance_rating Credit.reputational_risk Credit.risk_category
       Credit.rating Credit.leverage_assessment Credit.default_history
       Credit.emission_intensity Credit.trend_direction Credit.transition_readiness
       Credit.regulatory_risk Credit.stranded_asset_risk Credit.carbon_score
       Credit.risk_score Credit.carbon_risk_score Credit.esg_risk_score
       Credit.sdg_aligned_count Credit.composite_risk_score Credit.credit_score
       Credit.combined_score Credit.traditional_score Credit.rating_carbon_score].

(** Closes a goal about labels by cases on the comparisons that produce
    them. *)
Ltac label_cases :=
  cmp_cases; repeat split; intros;
  solve [reflexivity | discriminate | lra | tauto | (left; reflexivity) | (right; reflexivity)].

(** The three scores of a credit call, for draws of the unit interval. *)
Lemma credit_scores_range (w : World) (k : nat) :
  unit_draws w ->
  let T := Math_random w k * (95 - 45) + 45 in
  let C := Math_random w (S k) * (92 - 40) + 40 in
  let G := Math_random w (S (S k)) * (90 - 50) + 50 in
  (45 <= T /\ T < 95) /\ (40 <= C /\ C < 92) /\ (50 <= G /\ G < 90) /\
  (43 <= Credit.combinedScoreOf T C /\ Credit.combinedScoreOf T C < 93.8).
Proof.
  intros Hw T C G.
  destruct (Hw k) as [A0 A1]. destruct (Hw (S k)) as [B0 B1].
  destruct (Hw (S (S k))) as [C0 C1].
  pose proof (randomBetween_range _ 45 95 A0 A1 ltac:(reflexivity)) as HT.
  pose proof (randomBetween_range _ 40 92 B0 B1 ltac:(reflexivity)) as HC.
  pose proof (randomBetween_range _ 50 90 C0 C1 ltac:(reflexivity)) as HG.
  fold T in HT. fold C in HC. fold G in HG.
  unfold Credit.combinedScoreOf. repeat split; lra.
Qed.



(** X4.  In every credit response the risk category agrees with the rating:
    "low_risk" exactly for AAA, "moderate_risk" exactly for AA and A,
    "elevated_risk" exactly for BBB and BB; and the interest-rate adjustment
    is negative exactly for AAA and AA. *)
Theorem credit_risk_category_matches_rating (id ty : string) (w : World) (k : nat) :
  exists r,
    Credit.mockCreditAssessment id ty w k = Returns r (9 + k)%nat /\
    let rating := Credit.rating (Credit.credit_rating r) in
    let category := Credit.risk_category (Credit.risk_analysis r) in
    let adj := Credit.interest_rate_adjustment (Credit.credit_rating r) in
    (category = "low_risk" <-> rating = "AAA") /\
    (category = "moderate_risk" <-> rating = "AA" \/ rating = "A") /\
    (category = "elevated_risk" <-> rating = "BBB" \/ rating = "BB") /\
    (adj < 0 <-> rating = "AAA" \/ rating = "AA").
Proof.
  run_credit. unfold Credit.ratingOf.
  set (c := Credit.combinedScoreOf _ _).
  cmp_cases; cbn [fst snd]; repeat split; intros;
    try lra; try discriminate; try reflexivity;
    try (left; reflexivity); try (right; reflexivity);
    try (match goal with H : _ \/ _ |- _ => destruct H; discriminate end).
Qed.

(** X5.  The labels drawn from one score are nested.  A "strong" revenue
    assessment implies a "strong" profitability assessment, which implies a
    "strong" liquidity assessment.  An "excellent" environmental rating
    implies a "good" social rating, which implies a "good" governance rating;
    the governance rating is "good" exactly when the reputational risk is
    "low" and exactly when the environmental rating is not "fair". *)
Theorem credit_labels_are_nested (id ty : string) (w : World) (k : nat) :
  exists r,
    Credit.mockCreditAssessment id ty w k = Returns r (9 + k)%nat /\
    let tr := Credit.traditional_risk (Credit.risk_analysis r) in
    let esg := Credit.esg_risk (Credit.risk_analysis r) in
    (Credit.revenue_assessment tr = "strong" ->
       Credit.profitability_assessment tr = "strong") /\
    (Credit.profitability_assessment tr = "strong" ->
       Credit.liquidity_assessment tr = "strong") /\
    (Credit.environmental_rating esg = "excellent" -> Credit.social_rating esg = "good") /\
    (Credit.social_rating esg = "good" -> Credit.governance_rating esg = "good") /\
    (Credit.governance_rating esg = "good" <-> Credit.reputational_risk esg = "low") /\
    (Credit.governance_rating esg = "good" <-> Credit.environmental_rating esg <> "fair").
Proof.
  run_credit.
  set (T := Math_random w k * (95 - 45) + 45).
  set (G := Math_random w (S (S k)) * (90 - 50) + 50).
  repeat split; cmp_cases; intros; try reflexivity; try discriminate; try lra;
    try congruence.
Qed.

Lemma credit_labels_are_nested_witness :
  exists r,
    Credit.mockCreditAssessment "ACME" "company" world_acme 0%nat = Returns r 9%nat /\
    Credit.revenue_assessment (Credit.traditional_risk (Credit.risk_analysis r)) = "strong" /\
    Credit.profitability_assessment (Credit.traditional_risk (Credit.risk_analysis r))
    = "strong".
Proof.
  destruct (credit_labels_are_nested "ACME" "company" world_acme 0)
    as (r & E & H1 & _).
  exists r. split; [exact E |].
  assert (R : Credit.revenue_assessment
                (Credit.traditional_risk (Credit.risk_analysis r)) = "strong").
  { vm_compute in E. injection E as <-. reflexivity. }
  split; [exact R | exact (H1 R)].
Defined.

(** X6.  The carbon-risk labels of a credit response are consistent with
    one another.  A "high" regulatory risk comes only with "high" emission
    intensity and "developing" transition readiness; a "high" stranded-asset
    risk comes only with "developing" readiness and a regulatory risk that is
    not "low"; "strong" readiness comes only with "low" regulatory and "low"
    stranded-asset risk. *)
Theorem credit_carbon_labels_consistent (id ty : string) (w : World) (k : nat) :
  exists r,
    Credit.mockCreditAssessment id ty w k = Returns r (9 + k)%nat /\
    let cr := Credit.carbon_risk (Credit.risk_analysis r) in
    (Credit.regulatory_risk cr = "high" ->
       Credit.emission_intensity cr = "high" /\
       Credit.transition_readiness cr = "developing") /\
    (Credit.stranded_asset_risk cr = "high" ->
       Credit.transition_readiness cr = "developing" /\
       Credit.regulatory_risk cr <> "low") /\
    (Credit.transition_readiness cr = "strong" ->
       Credit.regulatory_risk cr = "low" /\ Credit.stranded_asset_risk cr = "low").
Proof.
  run_credit.
  set (E := Num.Math_floor (Math_random w (S (S (S k))) * (4000 - 500) + 500)).
  set (R := Num.Math_floor (Math_random w (S (S (S (S (S k))))) * (75 - 10) + 10)).
  cmp_cases; cbn [andb]; repeat split; intros; repeat split;
    try reflexivity; try discriminate; try lra; try (intro; discriminate).
Qed.

Lemma credit_carbon_labels_consistent_witness :
  exists r,
    Credit.mockCreditAssessment "ACME" "company" world_low 0%nat = Returns r 9%nat /\
    Credit.stranded_asset_risk (Credit.carbon_risk (Credit.risk_analysis r)) = "high" /\
    Credit.transition_readiness (Credit.carbon_risk (Credit.risk_analysis r))
    = "developing".
Proof.
  destruct (credit_carbon_labels_consistent "ACME" "company" world_low 0)
    as (r & E & _ & H2 & _).
  exists r. split; [exact E |].
  assert (R : Credit.stranded_asset_risk
                (Credit.carbon_risk (Credit.risk_analysis r)) = "high").
  { vm_compute in E. injection E as <-. reflexivity. }
  split; [exact R | exact (proj1 (H2 R))].
Defined.

(** X7.  The rating improves with the combined score: a higher score never
    gets a larger interest-rate adjustment, and two scores get the same
    rating exactly when they get the same adjustment. *)
Theorem credit_rating_monotone (c1 c2 : Q) :
  (c1 <= c2 -> snd (Credit.ratingOf c2) <= snd (Credit.ratingOf c1)) /\
  (fst (Credit.ratingOf c1) = fst (Credit.ratingOf c2)
   <-> snd (Credit.ratingOf c1) == snd (Credit.ratingOf c2)).
Proof.
  unfold Credit.ratingOf.
  split; [intros H | split; intros H];
    cmp_cases; cbn [fst snd] in *;
    solve [discriminate | reflexivity | lra | (exfalso; lra)].
Qed.

Lemma credit_rating_monotone_witness :
  55 <= 72 /\ snd (Credit.ratingOf 72) <= snd (Credit.ratingOf 55).
Proof.
  assert (H : 55 <= 72) by discriminate.
  split; [exact H |].
  exact (proj1 (credit_rating_monotone 55 72) H).
Defined.

(** ** Credit view *)

(** The reported scores of a credit call, for draws of the unit interval. *)
Lemma credit_reported_scores (id ty : string) (w : World) (k : nat) :
  unit_draws w ->
  exists r,
    Credit.mockCreditAssessment id ty w k = Returns r (9 + k)%nat /\
    (45 <= Credit.risk_score (Credit.traditional_risk (Credit.risk_analysis r)) /\
     Credit.risk_score (Credit.traditional_risk (Credit.risk_analysis r)) <= 95) /\
    (40 <= Credit.carbon_score r /\ Credit.carbon_score r <= 92) /\
    (40 <= Credit.carbon_risk_score (Credit.carbon_risk (Credit.risk_analysis r)) /\
     Credit.carbon_risk_score (Credit.carbon_risk (Credit.risk_analysis r)) <= 92) /\
    (50 <= Credit.esg_risk_score (Credit.esg_risk (Credit.risk_analysis r)) /\
     Credit.esg_risk_score (Credit.esg_risk (Credit.risk_analysis r)) <= 90).
Proof.
  intros Hw.
  destruct (credit_scores_range w k Hw) as (HT & HC & HG & HB).
  run_credit.
  split; [apply (roundTo_between 100 45 95 _ 4500 9500); try reflexivity; lra |].
  split; [apply (roundTo_between 100 40 92 _ 4000 9200); try reflexivity; lra |].
  split; [apply (roundTo_between 100 40 92 _ 4000 9200); try reflexivity; lra |].
  apply (roundTo_between 100 50 90 _ 5000 9000); try reflexivity; lra.
Qed.

Lemma orZero_positive (x : Q) : 0 < x -> orZero x = x.
Proof.
  intros H. unfold orZero.
  destruct (Qeq_bool x 0) eqn:E; [| reflexivity].
  apply Qeq_bool_eq in E. lra.
Qed.

Lemma getScoreColor_from_40 (x : Q) :
  40 <= x -> In (CreditView.getScoreColor x) ["#00ff88"; "#00d4ff"; "#fbbf24"].
Proof.
  intros H. unfold CreditView.getScoreColor. cmp_cases; simpl; try tauto. lra.
Qed.

Lemma ratingOf_has_config (c : Q) :
  exists cfg,
    CreditView.getRatingConfig (fst (Credit.ratingOf c)) = Own cfg /\
    CreditView.configs !! fst (Credit.ratingOf c) = Some cfg /\
    In (fst (Credit.ratingOf c), CreditView.label cfg)
       [ ("AAA", "EXCELLENT"); ("AA", "VERY_GOOD"); ("A", "GOOD");
         ("BBB", "FAIR"); ("BB", "BELOW_AVG") ].
Proof.
  unfold Credit.ratingOf.
  cmp_cases; cbn [fst]; eexists;
    (split; [vm_compute; reflexivity |]);
    (split; [reflexivity |]); vm_compute; tauto.
Qed.

(** X8.  [getRatingConfig] finds an own entry of the table for every rating
    that [mockCreditAssessment] produces, with the label of that rating, so
    the fallback is never used on a generated response.  A string that is
    neither a key of the table nor a member of [Object.prototype] gets the
    configuration of "BBB"; a member name of [Object.prototype] (such as
    "constructor") gets that inherited member, not a configuration. *)
Theorem rating_config_lookup :
  (forall (id ty : string) (w : World) (k : nat),
      exists r cfg,
        Credit.mockCreditAssessment id ty w k = Returns r (9 + k)%nat /\
        CreditView.getRatingConfig (Credit.rating (Credit.credit_rating r)) = Own cfg /\
        CreditView.configs !! Credit.rating (Credit.credit_rating r) = Some cfg /\
        In (Credit.rating (Credit.credit_rating r), CreditView.label cfg)
           [ ("AAA", "EXCELLENT"); ("AA", "VERY_GOOD"); ("A", "GOOD");
             ("BBB", "FAIR"); ("BB", "BELOW_AVG") ]) /\
  (forall rating : string,
      CreditView.configs !! rating = None ->
      rating ∉ Object_prototype_keys ->
      CreditView.getRatingConfig rating
      = Own {| CreditView.color := "#fbbf24"; CreditView.bg := "rgba(251,191,36,0.15)";
               CreditView.label := "FAIR" |}) /\
  (forall rating : string,
      rating ∈ Object_prototype_keys ->
      CreditView.getRatingConfig rating = Inherited).
Proof.
  split; [| split].
  - intros id ty w k.
    destruct (ratingOf_has_config
                (Credit.combinedScoreOf (Math_random w k * (95 - 45) + 45)
                   (Math_random w (S k) * (92 - 40) + 40)))
      as (cfg & H1 & H2 & H3).
    unfold Credit.mockCreditAssessment. run_js.
    eexists. exists cfg. split; [reflexivity |].
    cbn [Credit.rating Credit.credit_rating].
    split; [exact H1 |]. split; [exact H2 | exact H3].
  - intros rating Hnone Hproto.
    unfold CreditView.getRatingConfig, get at 1. rewrite Hnone.
    destruct (decide (rating ∈ Object_prototype_keys)); [contradiction |].
    reflexivity.
  - intros rating Hin. unfold Object_prototype_keys in Hin.
    rewrite !elem_of_cons, elem_of_nil in Hin.
    decompose [or] Hin; subst; try contradiction; reflexivity.
Qed.

Lemma rating_config_lookup_witness :
  CreditView.configs !! "CCC" = None /\ ("CCC" ∉ Object_prototype_keys) /\
  CreditView.getRatingConfig "CCC"
  = Own {| CreditView.color := "#fbbf24"; CreditView.bg := "rgba(251,191,36,0.15)";
           CreditView.label := "FAIR" |}.
Proof.
  assert (H1 : CreditView.configs !! "CCC" = None) by reflexivity.
  assert (H2 : "CCC" ∉ Object_prototype_keys).
  { unfold Object_prototype_keys. rewrite !not_elem_of_cons.
    repeat split; [discriminate .. | apply not_elem_of_nil]. }
  split; [exact H1 |]. split; [exact H2 |].
  exact (proj1 (proj2 rating_config_lookup) "CCC" H1 H2).
Defined.

(** X9.  For draws of [0, 1) the three analysis scores of a credit response
    are at least 40, so [getScoreColor] never paints one of them in the
    lowest colour "#ef4444". *)
Theorem score_colour_never_lowest (id ty : string) (w : World) (k : nat) :
  unit_draws w ->
  exists r,
    Credit.mockCreditAssessment id ty w k = Returns r (9 + k)%nat /\
    let ra := Credit.risk_analysis r in
    CreditView.getScoreColor (Credit.risk_score (Credit.traditional_risk ra)) <> "#ef4444" /\
    CreditView.getScoreColor (Credit.carbon_risk_score (Credit.carbon_risk ra)) <> "#ef4444" /\
    CreditView.getScoreColor (Credit.esg_risk_score (Credit.esg_risk ra)) <> "#ef4444".
Proof.
  intros Hw.
  destruct (credit_reported_scores id ty w k Hw)
    as (r & E & (T1 & _) & _ & (C1 & _) & (G1 & _)).
  exists r. split; [exact E |]. cbn zeta.
  assert (G40 : 40 <= Credit.esg_risk_score (Credit.esg_risk (Credit.risk_analysis r)))
    by lra.
  assert (T40 : 40 <= Credit.risk_score (Credit.traditional_risk (Credit.risk_analysis r)))
    by lra.
  pose proof (getScoreColor_from_40 _ T40) as HT.
  pose proof (getScoreColor_from_40 _ C1) as HC.
  pose proof (getScoreColor_from_40 _ G40) as HG.
  simpl in HT, HC, HG.
  repeat split; intros Hred; rewrite Hred in *;
    intuition discriminate.
Qed.

Lemma score_colour_never_lowest_witness :
  unit_draws world_low /\
  exists r,
    Credit.mockCreditAssessment "ACME" "company" world_low 0%nat = Returns r 9%nat /\
    CreditView.getScoreColor
      (Credit.carbon_risk_score (Credit.carbon_risk (Credit.risk_analysis r)))
    <> "#ef4444".
Proof.
  assert (H : unit_draws world_low)
    by (intros i; split; [apply Qle_refl | reflexivity]).
  split; [exact H |].
  destruct (score_colour_never_lowest "ACME" "company" world_low 0 H)
    as (r & E & _ & HC & _).
  exists r. split; [exact E | exact HC].
Defined.

(** X10.  [getRadarData] returns no point for a null result.  For a
    generated response (draws of [0, 1)) it returns the five points
    financial, carbon, esg, regulatory, transition in this order; the first
    four carry the reported scores themselves (the [|| 0] fallback is never
    taken), and every value lies between 0 and the full mark 100. *)
Theorem radar_values_within_full_mark (id ty : string) (w : World) (k : nat) :
  unit_draws w ->
  CreditView.getRadarData None = [] /\
  exists r,
    Credit.mockCreditAssessment id ty w k = Returns r (9 + k)%nat /\
    let ra := Credit.risk_analysis r in
    let points := CreditView.getRadarData (Some r) in
    map CreditView.subject points
    = ["financial"; "carbon"; "esg"; "regulatory"; "transition"] /\
    firstn 4 (map CreditView.value points)
    = [ Credit.risk_score (Credit.traditional_risk ra); Credit.carbon_score r;
        Credit.esg_risk_score (Credit.esg_risk ra);
        Credit.carbon_risk_score (Credit.carbon_risk ra) ] /\
    Forall (fun p => 0 <= CreditView.value p /\
                     CreditView.value p <= CreditView.fullMark p /\
                     CreditView.fullMark p = 100) points.
Proof.
  intros Hw. split; [reflexivity |].
  destruct (credit_reported_scores id ty w k Hw)
    as (r & E & (T1 & T2) & (C1 & C2) & (R1 & R2) & (G1 & G2)).
  exists r. split; [exact E |]. cbn zeta.
  unfold CreditView.getRadarData.
  rewrite !orZero_positive by lra.
  split; [reflexivity |]. split; [reflexivity |].
  repeat (constructor;
          [cbn [CreditView.value CreditView.fullMark];
           try match goal with
               | |- context [String.eqb ?a ?b] => destruct (String.eqb a b)
               end;
           repeat split; solve [reflexivity | lra | discriminate] |]).
  constructor.
Qed.

Lemma radar_values_within_full_mark_witness :
  unit_draws world_low /\
  exists r,
    Credit.mockCreditAssessment "ACME" "company" world_low 0%nat = Returns r 9%nat /\
    map CreditView.subject (CreditView.getRadarData (Some r))
    = ["financial"; "carbon"; "esg"; "regulatory"; "transition"].
Proof.
  assert (H : unit_draws world_low)
    by (intros i; split; [apply Qle_refl | reflexivity]).
  split; [exact H |].
  destruct (proj2 (radar_values_within_full_mark "ACME" "company" world_low 0 H))
    as (r & E & HS & _).
  exists r. split; [exact E | exact HS].
Defined.


(** ** Portfolio optimisation: the assets and the aggregate figures *)

(** The rows of the six tables carry none of the fields that
    [generateAssets] adds. *)
Lemma assetSets_rows (g : bool) (t : string) :
  t ∈ tiers ->
  exists table,
    Portfolio.assetSets g !! t = Some table /\
    length table = 4%nat /\
    Qsum (map Portfolio.allocation table) == 1 /\
    Forall (fun row => Portfolio.esg_rating row = None /\
                       Portfolio.sdg_aligned row = None) table.
Proof.
  unfold tiers. rewrite !elem_of_cons, elem_of_nil.
  intros [-> | [-> | [-> | []]]]; destruct g;
    (eexists; split; [reflexivity |]; split; [reflexivity |];
     split; [reflexivity |]; repeat constructor).
Qed.

Lemma decorate_decorated (capital : Q) (g : bool) (row : Portfolio.Asset)
    (w : World) (k : nat) :
  Portfolio.esg_rating row = None -> Portfolio.sdg_aligned row = None ->
  exists a,
    Portfolio.decorate capital g row w k = Returns a ((if g then 1 else 0) + k)%nat /\
    decorated capital g row a.
Proof.
  intros He Hs. unfold Portfolio.decorate, decorated.
  destruct g; run_js; eexists; (split; [reflexivity |]);
    cbn [Portfolio.name Portfolio.allocation Portfolio.expected_return
         Portfolio.volatility Portfolio.annual_co2_tons Portfolio.type Portfolio.value
         Portfolio.esg_rating Portfolio.sdg_aligned].
  - repeat split. destruct (_ >? _); [left | right]; reflexivity.
  - repeat split; assumption.
Qed.

Lemma mapM_decorate_decorated (capital : Q) (g : bool) (table : list Portfolio.Asset) :
  Forall (fun row => Portfolio.esg_rating row = None /\
                     Portfolio.sdg_aligned row = None) table ->
  forall (w : World) (k : nat),
  exists l,
    mapM (Portfolio.decorate capital g) table w k
      = Returns l ((if g then length table else 0) + k)%nat /\
    Forall2 (decorated capital g) table l.
Proof.
  induction 1 as [| row table [He Hs] _ IH]; intros w k.
  - exists []. split; [destruct g; reflexivity | constructor].
  - destruct (decorate_decorated capital g row w k He Hs) as (a & Ea & Da).
    destruct (IH w ((if g then 1 else 0) + k)%nat) as (l & El & Dl).
    exists (a :: l). cbn [mapM]. unfold bind at 1. rewrite Ea.
    unfold bind at 1. rewrite El. unfold ret. split.
    + f_equal. destruct g; cbn [length]; lia.
    + constructor; assumption.
Qed.

(** What a returned response is made of: the tier is one of the three keys,
    four draws were used, and the assets of the two portfolios are the
    decorated rows of the two tables of that tier. *)
Lemma mockPortfolioOptimization_assets (capital : Q) (t : string) (targetReturn : Q)
    (w : World) (k n : nat) (r : Portfolio.PortfolioPair) :
  Portfolio.mockPortfolioOptimization capital t targetReturn w k = Returns r n ->
  (t ∈ tiers) /\ n = (4 + k)%nat /\
  exists tableT tableG,
    Portfolio.assetSets false !! t = Some tableT /\
    Portfolio.assetSets true !! t = Some tableG /\
    length tableT = 4%nat /\ length tableG = 4%nat /\
    Qsum (map Portfolio.allocation tableT) == 1 /\
    Qsum (map Portfolio.allocation tableG) == 1 /\
    Forall2 (decorated capital false) tableT
      (Portfolio.assets (Portfolio.traditional_portfolio r)) /\
    Forall2 (decorated capital true) tableG
      (Portfolio.assets (Portfolio.green_portfolio r)) /\
    Portfolio.total_value (Portfolio.traditional_portfolio r) = capital /\
    Portfolio.total_value (Portfolio.green_portfolio r) = capital.
Proof.
  intros E.
  destruct (decide (t ∈ tiers)) as [Hin | Hout].
  2: { destruct (mockPortfolioOptimization_throws capital t targetReturn w k Hout)
         as (msg & E'). rewrite E' in E. discriminate. }
  split; [exact Hin |].
  destruct (assetSets_rows false t Hin) as (tableT & LT & NT & ST & RT).
  destruct (assetSets_rows true t Hin) as (tableG & LG & NG & SG & RG).
  destruct (mapM_decorate_decorated capital false tableT RT w k) as (trad & ET & DT).
  destruct (mapM_decorate_decorated capital true tableG RG w (0 + k)%nat)
    as (green & EG & DG).
  unfold Portfolio.mockPortfolioOptimization, Portfolio.generateAssets, get in E.
  rewrite LT, LG in E. unfold bind at 1 in E. rewrite ET in E.
  unfold bind at 1 in E. rewrite EG in E.
  unfold bind, now, ret in E. rewrite NG in E.
  injection E as <- <-.
  split; [reflexivity |].
  exists tableT, tableG.
  cbn [Portfolio.assets Portfolio.traditional_portfolio Portfolio.green_portfolio
       Portfolio.total_value].
  repeat split; assumption.
Qed.






(** X12.  Every response holds four assets per portfolio, in the order of
    the table and with its names.  An asset of the traditional portfolio has
    type "traditional" and neither an ESG rating nor an SDG flag; an asset of
    the green portfolio has type "green", an ESG rating that is "AAA" or
    "AA", and the SDG flag set.  Both portfolios report the capital as their
    total value. *)
Theorem portfolio_assets_shape
    (capital : Q) (t : string) (targetReturn : Q) (w : World) (k n : nat)
    (r : Portfolio.PortfolioPair) :
  Portfolio.mockPortfolioOptimization capital t targetReturn w k = Returns r n ->
  let trad := Portfolio.assets (Portfolio.traditional_portfolio r) in
  let green := Portfolio.assets (Portfolio.green_portfolio r) in
  exists tableT tableG,
    Portfolio.assetSets false !! t = Some tableT /\
    Portfolio.assetSets true !! t = Some tableG /\
    length trad = 4%nat /\ length green = 4%nat /\
    map Portfolio.name trad = map Portfolio.name tableT /\
    map Portfolio.name green = map Portfolio.name tableG /\
    Forall (fun a => Portfolio.type a = Some "traditional" /\
                     Portfolio.esg_rating a = None /\
                     Portfolio.sdg_aligned a = None) trad /\
    Forall (fun a => Portfolio.type a = Some "green" /\
                     (Portfolio.esg_rating a = Some "AAA" \/
                      Portfolio.esg_rating a = Some "AA") /\
                     Portfolio.sdg_aligned a = Some true) green /\
    Portfolio.total_value (Portfolio.traditional_portfolio r) = capital /\
    Portfolio.total_value (Portfolio.green_portfolio r) = capital.
Proof.
  intros E trad green.
  destruct (mockPortfolioOptimization_assets _ _ _ _ _ _ _ E)
    as (_ & _ & tableT & tableG & LT & LG & NT & NG & _ & _ & DT & DG & VT & VG).
  fold trad in DT. fold green in DG.
  exists tableT, tableG.
  split; [exact LT |]. split; [exact LG |].
  split; [rewrite <- (Forall2_length _ _ _ DT); exact NT |].
  split; [rewrite <- (Forall2_length _ _ _ DG); exact NG |].
  split; [| split; [| split; [| split; [| split; assumption]]]].
  - clear -DT. induction DT as [| row a tb l Da _ IH]; [reflexivity |].
    cbn [map]. rewrite IH. f_equal. apply Da.
  - clear -DG. induction DG as [| row a tb l Da _ IH]; [reflexivity |].
    cbn [map]. rewrite IH. f_equal. apply Da.
  - clear -DT. induction DT as [| row a tb l Da _ IH]; constructor; [| exact IH].
    destruct Da as (_ & _ & _ & _ & _ & Ht & _ & He & Hs). auto.
  - clear -DG. induction DG as [| row a tb l Da _ IH]; constructor; [| exact IH].
    destruct Da as (_ & _ & _ & _ & _ & Ht & _ & He & Hs). auto.
Qed.

Lemma portfolio_assets_shape_witness :
  exists r,
    Portfolio.mockPortfolioOptimization 100000 "moderate" 0.08 world_low 0%nat
      = Returns r 4%nat /\
    length (Portfolio.assets (Portfolio.green_portfolio r)) = 4%nat.
Proof.
  eexists. split; [vm_compute; reflexivity |].
  assert (H := portfolio_assets_shape 100000 "moderate" 0.08 world_low 0 4 _
                 ltac:(vm_compute; reflexivity)).
  destruct H as (tT & tG & _ & _ & _ & H & _). exact H.
Defined.

Lemma map_mul_ext {A : Type} (f g : A -> Q) (l1 l2 : list A) :
  map f l1 = map f l2 -> map g l1 = map g l2 ->
  map (fun a => f a * g a) l1 = map (fun a => f a * g a) l2.
Proof.
  revert l2. induction l1 as [| a l1 IH]; intros [| b l2] Hf Hg;
    try discriminate; [reflexivity |].
  cbn [map] in *. injection Hf as Hf1 Hf2. injection Hg as Hg1 Hg2.
  rewrite Hf1, Hg1. f_equal. now apply IH.
Qed.

(** [calcMetrics] reads only four fields of the assets. *)
Lemma calcMetrics_ext (l1 l2 : list Portfolio.Asset) :
  map Portfolio.allocation l1 = map Portfolio.allocation l2 ->
  map Portfolio.expected_return l1 = map Portfolio.expected_return l2 ->
  map Portfolio.volatility l1 = map Portfolio.volatility l2 ->
  map Portfolio.annual_co2_tons l1 = map Portfolio.annual_co2_tons l2 ->
  Portfolio.calcMetrics l1 = Portfolio.calcMetrics l2.
Proof.
  intros Ha He Hv Hc. unfold Portfolio.calcMetrics.
  rewrite !(fold_left_sum_map (fun a => Portfolio.expected_return a * Portfolio.allocation a)).
  rewrite !(fold_left_sum_map (fun a => Portfolio.volatility a * Portfolio.allocation a)).
  rewrite !(fold_left_sum_map Portfolio.annual_co2_tons).
  rewrite (map_mul_ext _ _ _ _ He Ha), (map_mul_ext _ _ _ _ Hv Ha), Hc.
  reflexivity.
Qed.

Lemma decorated_metrics (capital1 capital2 : Q) (g : bool)
    (table l1 l2 : list Portfolio.Asset) :
  Forall2 (decorated capital1 g) table l1 ->
  Forall2 (decorated capital2 g) table l2 ->
  Portfolio.calcMetrics l1 = Portfolio.calcMetrics l2.
Proof.
  intros D1 D2.
  assert (M : forall capital l, Forall2 (decorated capital g) table l ->
            map Portfolio.allocation l = map Portfolio.allocation table /\
            map Portfolio.expected_return l = map Portfolio.expected_return table /\
            map Portfolio.volatility l = map Portfolio.volatility table /\
            map Portfolio.annual_co2_tons l
            = map (fun a => Num.Math_round (Portfolio.annual_co2_tons a
                                            * Portfolio.allocation a)) table).
  { clear. intros capital l D.
    induction D as [| row a tb l (_ & H1 & H2 & H3 & H4 & _) _ (I1 & I2 & I3 & I4)];
      [repeat split |].
    cbn [map]. rewrite H1, H2, H3, H4, I1, I2, I3, I4. repeat split. }
  destruct (M _ _ D1) as (A1 & B1 & C1 & E1).
  destruct (M _ _ D2) as (A2 & B2 & C2 & E2).
  apply calcMetrics_ext; congruence.
Qed.

(** Two returned responses for the same tier have the same summary. *)
Lemma summary_independent
    (capital1 capital2 : Q) (t : string) (targetReturn1 targetReturn2 : Q)
    (w1 w2 : World) (k1 k2 n1 n2 : nat) (r1 r2 : Portfolio.PortfolioPair) :
  Portfolio.mockPortfolioOptimization capital1 t targetReturn1 w1 k1 = Returns r1 n1 ->
  Portfolio.mockPortfolioOptimization capital2 t targetReturn2 w2 k2 = Returns r2 n2 ->
  summary r1 = summary r2.
Proof.
  intros E1 E2.
  destruct (mockPortfolioOptimization_assets _ _ _ _ _ _ _ E1) as (Hin & _).
  destruct (assetSets_rows false t Hin) as (tableT & LT & NT & _ & RT).
  destruct (assetSets_rows true t Hin) as (tableG & LG & NG & _ & RG).
  destruct (mapM_decorate_decorated capital1 false tableT RT w1 k1) as (t1 & ET1 & DT1).
  destruct (mapM_decorate_decorated capital1 true tableG RG w1 (0 + k1)%nat)
    as (g1 & EG1 & DG1).
  destruct (mapM_decorate_decorated capital2 false tableT RT w2 k2) as (t2 & ET2 & DT2).
  destruct (mapM_decorate_decorated capital2 true tableG RG w2 (0 + k2)%nat)
    as (g2 & EG2 & DG2).
  unfold Portfolio.mockPortfolioOptimization, Portfolio.generateAssets, get in E1, E2.
  rewrite LT, LG in E1, E2.
  unfold bind at 1 in E1. rewrite ET1 in E1. unfold bind at 1 in E1. rewrite EG1 in E1.
  unfold bind at 1 in E2. rewrite ET2 in E2. unfold bind at 1 in E2. rewrite EG2 in E2.
  unfold bind, now, ret in E1, E2.
  injection E1 as <- _. injection E2 as <- _.
  unfold summary.
  cbn [Portfolio.traditional_portfolio Portfolio.green_portfolio
       Portfolio.portfolio_type Portfolio.portfolio_expected_return
       Portfolio.portfolio_volatility Portfolio.sharpe_ratio
       Portfolio.annual_carbon_footprint Portfolio.carbon_neutrality_timeline_years
       Portfolio.sdg_alignment_score Portfolio.carbon_comparison
       Portfolio.recommendations Portfolio.status].
  pose proof (decorated_metrics _ _ _ _ _ _ DT1 DT2) as MT.
  pose proof (decorated_metrics _ _ _ _ _ _ DG1 DG2) as MG.
  pose proof (f_equal Portfolio.expectedReturn MT) as T1.
  pose proof (f_equal Portfolio.metrics_volatility MT) as T2.
  pose proof (f_equal Portfolio.carbonFootprint MT) as T4.
  pose proof (f_equal Portfolio.expectedReturn MG) as G1.
  pose proof (f_equal Portfolio.metrics_volatility MG) as G2.
  pose proof (f_equal Portfolio.carbonFootprint MG) as G4.
  unfold Portfolio.calcMetrics in T1, T2, T4, G1, G2, G4.
  cbn [Portfolio.expectedReturn Portfolio.metrics_volatility Portfolio.carbonFootprint]
    in T1, T2, T4, G1, G2, G4.
  rewrite T1, T2, T4, G1, G2, G4.
  reflexivity.
Qed.

(** X13.  The aggregate figures of a portfolio response depend on the tier
    alone.  Two returned responses for the same tier agree on the expected
    return, volatility, Sharpe ratio and footprint of both portfolios, on the
    timeline, on the whole carbon comparison and on the recommendation,
    whatever the capital, the target return and the random draws were; the
    capital changes only the total value and the values of the assets. *)
Theorem portfolio_summary_depends_on_tier_only
    (capital1 capital2 : Q) (t : string) (targetReturn1 targetReturn2 : Q)
    (w1 w2 : World) (k1 k2 n1 n2 : nat) (r1 r2 : Portfolio.PortfolioPair) :
  Portfolio.mockPortfolioOptimization capital1 t targetReturn1 w1 k1 = Returns r1 n1 ->
  Portfolio.mockPortfolioOptimization capital2 t targetReturn2 w2 k2 = Returns r2 n2 ->
  summary r1 = summary r2.
Proof. apply summary_independent. Qed.

Lemma portfolio_summary_depends_on_tier_only_witness :
  exists r1 r2,
    Portfolio.mockPortfolioOptimization 100000 "aggressive" 0.08 world_low 0%nat
      = Returns r1 4%nat /\
    Portfolio.mockPortfolioOptimization 250 "aggressive" 0.15 world_low_then_high 2%nat
      = Returns r2 6%nat /\
    summary r1 = summary r2.
Proof.
  eexists. eexists.
  split; [vm_compute; reflexivity |]. split; [vm_compute; reflexivity |].
  refine (portfolio_summary_depends_on_tier_only
            100000 250 "aggressive" 0.08 0.15 world_low world_low_then_high
            0 2 4 6 _ _ _ _);
    vm_compute; reflexivity.
Defined.








(** ** Portfolio view: the ten-year projection *)

Lemma Math_round_comp (x y : Q) : x == y -> Num.Math_round x = Num.Math_round y.
Proof. intros H. unfold Num.Math_round. now rewrite H. Qed.

Lemma Qpower_nat_succ (a : Q) (i : nat) :
  ~ a == 0 -> a ^ Z.of_nat (S i) == a * a ^ Z.of_nat i.
Proof.
  intros Ha. rewrite Nat2Z.inj_succ, <- Z.add_1_l.
  rewrite Qpower_plus by exact Ha. reflexivity.
Qed.

(** The loop pushes, after the rows it was given, one row per remaining
    iteration; [T] and [G] are the running emissions on entry. *)
Lemma projectionLoop_rows (trad green : Q) (n : nat) :
  forall (i : nat) (T G : Q) (years : list PortfolioView.ProjectionRow),
  T == trad * 0.95 ^ Z.of_nat i -> G == green * 0.85 ^ Z.of_nat i ->
  PortfolioView.projectionLoop n (Z.of_nat i) T G years
  = (years ++ map (projectionRow trad green) (seq i n))%list.
Proof.
  induction n as [| n IH]; intros i T G years HT HG.
  - cbn [PortfolioView.projectionLoop seq map]. now rewrite app_nil_r.
  - cbn [PortfolioView.projectionLoop seq map].
    replace (Z.of_nat i + 1)%Z with (Z.of_nat (S i)) by lia.
    rewrite (IH (S i)).
    + rewrite <- app_assoc. cbn [app]. unfold projectionRow at 2.
      rewrite (Math_round_comp _ _ HT), (Math_round_comp _ _ HG). reflexivity.
    + rewrite HT, Qpower_nat_succ by discriminate. ring.
    + rewrite HG, Qpower_nat_succ by discriminate. ring.
Qed.

Lemma Qpower_nat_le (a b : Q) (i : nat) :
  0 < a -> a <= b -> 0 < a ^ Z.of_nat i /\ a ^ Z.of_nat i <= b ^ Z.of_nat i.
Proof.
  intros Ha Hab. induction i as [| i [IH1 IH2]].
  - split; [reflexivity | discriminate].
  - rewrite !Qpower_nat_succ by lra. split.
    + apply Qmult_lt_0_compat; assumption.
    + apply Qle_trans with (a * b ^ Z.of_nat i).
      * rewrite !(Qmult_comm a). apply Qmult_le_compat_r; lra.
      * apply Qmult_le_compat_r; lra.
Qed.

(** X16.  [getCarbonProjection] returns no row while there is no result.
    For a result it returns eleven rows, for the years Y0 to Y10: row i shows
    the traditional emissions of the comparison times 0.95^i and the green
    emissions times 0.85^i, each rounded to an integer, and a net-zero line
    of 0.  When the green emissions start between 0 and the traditional ones,
    every row keeps 0 <= green <= traditional. *)
Theorem carbon_projection_rows (r : Portfolio.PortfolioPair) :
  let trad := Portfolio.traditional_emissions_tons (Portfolio.carbon_comparison r) in
  let green := Portfolio.green_emissions_tons (Portfolio.carbon_comparison r) in
  PortfolioView.getCarbonProjection None = [] /\
  PortfolioView.getCarbonProjection (Some r) = map (projectionRow trad green) (seq 0 11) /\
  length (PortfolioView.getCarbonProjection (Some r)) = 11%nat /\
  map PortfolioView.year (PortfolioView.getCarbonProjection (Some r))
  = ["Y0"; "Y1"; "Y2"; "Y3"; "Y4"; "Y5"; "Y6"; "Y7"; "Y8"; "Y9"; "Y10"] /\
  (0 <= green -> green <= trad ->
   Forall (fun row => 0 <= PortfolioView.green row /\
                      PortfolioView.green row <= PortfolioView.traditional row)
          (PortfolioView.getCarbonProjection (Some r))).
Proof.
  intros trad green.
  assert (E : PortfolioView.getCarbonProjection (Some r)
              = map (projectionRow trad green) (seq 0 11)).
  { unfold PortfolioView.getCarbonProjection. fold trad green.
    change 0%Z with (Z.of_nat 0).
    rewrite (projectionLoop_rows trad green 11 0 trad green []);
      [reflexivity | change (0.95 ^ Z.of_nat 0) with 1
                   | change (0.85 ^ Z.of_nat 0) with 1]; ring. }
  split; [reflexivity |]. split; [exact E |]. rewrite E.
  split; [now rewrite length_map, length_seq |].
  split; [reflexivity |].
  intros H0 Hle. apply Forall_forall. intros row Hrow.
  apply list_elem_of_In, in_map_iff in Hrow. destruct Hrow as (i & <- & _).
  cbn [projectionRow PortfolioView.green PortfolioView.traditional].
  destruct (Qpower_nat_le 0.85 0.95 i ltac:(reflexivity) ltac:(discriminate))
    as [P1 P2].
  assert (Q1 : 0 <= green * 0.85 ^ Z.of_nat i) by (apply Qmult_le_0_compat; lra).
  assert (Q2 : green * 0.85 ^ Z.of_nat i <= trad * 0.95 ^ Z.of_nat i).
  { apply Qle_trans with (green * 0.95 ^ Z.of_nat i).
    - rewrite !(Qmult_comm green). apply Qmult_le_compat_r; lra.
    - apply Qmult_le_compat_r; lra. }
  split.
  - apply Qle_trans with (Num.Math_round 0); [discriminate |].
    apply Math_round_mono. exact Q1.
  - apply Math_round_mono. exact Q2.
Qed.

Lemma carbon_projection_rows_witness :
  exists r,
    Portfolio.mockPortfolioOptimization 100000 "moderate" 0.08 world_low 0%nat
      = Returns r 4%nat /\
    0 <= Portfolio.green_emissions_tons (Portfolio.carbon_comparison r) /\
    Portfolio.green_emissions_tons (Portfolio.carbon_comparison r)
    <= Portfolio.traditional_emissions_tons (Portfolio.carbon_comparison r) /\
    Forall (fun row => 0 <= PortfolioView.green row /\
                       PortfolioView.green row <= PortfolioView.traditional row)
           (PortfolioView.getCarbonProjection (Some r)).
Proof.
  eexists. split; [vm_compute; reflexivity |].
  split; [discriminate |]. split; [discriminate |].
  apply (proj2 (proj2 (proj2 (proj2 (carbon_projection_rows _))))); discriminate.
Defined.




(** ** Micro-loan application: ranges, amounts and interest *)

(** The scores of a loan call, for draws of the unit interval. *)
Lemma loan_scores_range (w : World) (k : nat) :
  unit_draws w ->
  let M := Math_random w k * (95 - 50) + 50 in
  let G := Math_random w (S k) * (90 - 40) + 40 in
  let S' := Math_random w (S (S k)) * (85 - 55) + 55 in
  (50 <= M /\ M < 95) /\ (40 <= G /\ G < 90) /\ (55 <= S' /\ S' < 85) /\
  (48 <= Loan.compositeScoreOf M G S' /\ Loan.compositeScoreOf M G S' < 91.5).
Proof.
  intros Hw M G S'.
  destruct (Hw k) as [A0 A1]. destruct (Hw (S k)) as [B0 B1].
  destruct (Hw (S (S k))) as [C0 C1].
  pose proof (randomBetween_range _ 50 95 A0 A1 ltac:(reflexivity)) as HM.
  pose proof (randomBetween_range _ 40 90 B0 B1 ltac:(reflexivity)) as HG.
  pose proof (randomBetween_range _ 55 85 C0 C1 ltac:(reflexivity)) as HS.
  fold M in HM. fold G in HG. fold S' in HS.
  unfold Loan.compositeScoreOf. repeat split; lra.
Qed.

(** X18.  For draws of [0, 1) the scores of a loan decision lie in their
    ranges: mobile 50 to 95, green activity 40 to 90, social 55 to 85, the
    composite 48 to 91.5, and the confidence level 0.75 to 0.92; the
    assessment method is "alternative_data". *)
Theorem loan_scores_in_range {D : Type} (id : string) (amount : Q) (purpose : string)
    (data : D) (w : World) (k : nat) :
  unit_draws w ->
  exists r,
    Loan.mockMicroLoan id amount purpose data w k = Returns r (4 + k)%nat /\
    let a := Loan.assessment r in
    (50 <= Loan.mobile_payment_score a /\ Loan.mobile_payment_score a <= 95) /\
    (40 <= Loan.green_activity_score a /\ Loan.green_activity_score a <= 90) /\
    (55 <= Loan.social_score a /\ Loan.social_score a <= 85) /\
    (48 <= Loan.alternative_credit_score a /\ Loan.alternative_credit_score a <= 91.5) /\
    (0.75 <= Loan.confidence_level a /\ Loan.confidence_level a <= 0.92) /\
    Loan.assessment_method a = "alternative_data".
Proof.
  intros Hw.
  destruct (loan_scores_range w k Hw) as (HM & HG & HS & HC).
  destruct (Hw (S (S (S k)))) as [D0 D1].
  pose proof (randomBetween_range _ 0.75 0.92 D0 D1 ltac:(reflexivity)) as HF.
  unfold Loan.mockMicroLoan. run_js. eexists. split; [reflexivity |].
  cbn [Loan.assessment Loan.mobile_payment_score Loan.green_activity_score
       Loan.social_score Loan.alternative_credit_score Loan.confidence_level
       Loan.assessment_method].
  split; [apply (roundTo_between 100 50 95 _ 5000 9500); try reflexivity; lra |].
  split; [apply (roundTo_between 100 40 90 _ 4000 9000); try reflexivity; lra |].
  split; [apply (roundTo_between 100 55 85 _ 5500 8500); try reflexivity; lra |].
  split; [apply (roundTo_between 100 48 91.5 _ 4800 9150); try reflexivity; lra |].
  split; [apply (roundTo_between 100 0.75 0.92 _ 75 92); try reflexivity; lra |].
  reflexivity.
Qed.

Lemma loan_scores_in_range_witness :
  unit_draws world_low /\
  exists r,
    Loan.mockMicroLoan "farmer-17" 5000 "agriculture" tt world_low 0%nat
      = Returns r 4%nat /\
    48 <= Loan.alternative_credit_score (Loan.assessment r).
Proof.
  assert (H : unit_draws world_low)
    by (intros i; split; [apply Qle_refl | reflexivity]).
  split; [exact H |].
  destruct (loan_scores_in_range "farmer-17" 5000 "agriculture" tt world_low 0 H)
    as (r & E & _ & _ & _ & (HC & _) & _).
  exists r. split; [exact E | exact HC].
Defined.

(** The approved amount, before rounding, for a requested amount that is not
    negative. *)
Lemma approvedAmount_nonneg (c amount : Q) :
  0 <= amount ->
  let A := Num.Math_min amount (snd (Loan.termsBand c amount)) in
  0 <= A /\ A <= amount /\
  (65 <= c -> A == amount) /\
  (55 <= c -> c < 65 -> A == amount * 0.8) /\
  (c < 55 -> A == amount * 0.5).
Proof.
  intros H0 A. unfold A, Num.Math_min.
  destruct (termsBand_cases c amount)
    as [(H1 & ->) | [(H1 & H2 & ->) | [(H1 & H2 & ->) | (H1 & ->)]]];
    cbn [snd].
  - rewrite (Q.min_l amount (amount * 1.2)) by lra. repeat split; intros; lra.
  - rewrite (Q.min_id amount). repeat split; intros; lra.
  - rewrite (Q.min_r amount (amount * 0.8)) by lra. repeat split; intros; lra.
  - rewrite (Q.min_r amount (amount * 0.5)) by lra. repeat split; intros; lra.
Qed.



(** The monthly payment is the approved amount times a factor that depends
    on the band only; the factor lies between 4.43 and 4.71 percent. *)
Lemma monthlyPayment_factor (c amount A : Q) :
  exists f,
    Loan.monthlyPaymentOf A (fst (Loan.termsBand c amount) / 12) == A * f /\
    0.0443 <= f /\ f <= 0.0471.
Proof.
  unfold Loan.monthlyPaymentOf.
  destruct (termsBand_cases c amount)
    as [(_ & ->) | [(_ & _ & ->) | [(_ & _ & ->) | (_ & ->)]]]; cbn [fst];
    match goal with
    | |- context [ A * ?num / ?den ] =>
        exists (num / den);
        split; [generalize num, den; intros; unfold Qdiv; ring |];
        split; vm_compute; discriminate
    end.
Qed.

(** X20.  For a positive requested amount the loan always costs interest,
    in every band.  Before rounding, the monthly payment is between 4.43 and
    4.71 percent of the approved amount, and the 24 payments exceed the
    approved amount by between 6.3 and 13.1 percent of it.  In the response
    the total interest is not negative and the total repayment is at least
    the approved amount. *)
Theorem loan_always_costs_interest {D : Type} (id : string) (amount : Q)
    (purpose : string) (data : D) (w : World) (k : nat) :
  0 < amount ->
  let c := Loan.compositeScoreOf (Math_random w k * (95 - 50) + 50)
             (Math_random w (1 + k)%nat * (90 - 40) + 40)
             (Math_random w (2 + k)%nat * (85 - 55) + 55) in
  let A := Num.Math_min amount (snd (Loan.termsBand c amount)) in
  let P := Loan.monthlyPaymentOf A (fst (Loan.termsBand c amount) / 12) in
  exists r lt,
    Loan.mockMicroLoan id amount purpose data w k = Returns r (4 + k)%nat /\
    Loan.loan_terms r = Some lt /\
    0 < A /\
    (0.0443 * A <= P /\ P <= 0.0471 * A) /\
    (0.063 * A <= P * 24 - A /\ P * 24 - A <= 0.131 * A) /\
    0 <= Loan.total_interest lt /\
    0 <= Loan.monthly_payment lt /\
    Loan.approved_amount lt <= Loan.total_repayment lt.
Proof.
  intros H0 c A P.
  destruct (mockMicroLoan_returns id amount purpose data w k)
    as (r & lt & E & Hlt & _ & _ & _ & Ha & _ & Hm & Ht & Hi).
  fold c in Ha, Hm, Ht, Hi. fold A in Ha, Hm, Ht, Hi. fold P in Hm, Ht, Hi.
  destruct (monthlyPayment_factor c amount A) as (f & Hf & F1 & F2). fold P in Hf.
  assert (HA : 0 < A).
  { unfold A, Num.Math_min.
    destruct (termsBand_cases c amount)
      as [(_ & ->) | [(_ & _ & ->) | [(_ & _ & ->) | (_ & ->)]]]; cbn [snd];
      apply Q.min_glb_lt; lra. }
  assert (B1 : A * 0.0443 <= A * f) by (rewrite !(Qmult_comm A); apply Qmult_le_compat_r; lra).
  assert (B2 : A * f <= A * 0.0471) by (rewrite !(Qmult_comm A); apply Qmult_le_compat_r; lra).
  exists r, lt. split; [exact E |]. split; [exact Hlt |].
  split; [exact HA |].
  split; [split; lra |]. split; [split; lra |].
  rewrite Hi, Hm, Ht, Ha.
  split.
  { apply Qle_trans with (Num.roundTo 100 0); [discriminate |].
    apply roundTo_mono; [reflexivity | lra]. }
  split.
  { apply Qle_trans with (Num.roundTo 100 0); [discriminate |].
    apply roundTo_mono; [reflexivity | lra]. }
  apply roundTo_mono; [reflexivity | lra].
Qed.

Lemma loan_always_costs_interest_witness :
  0 < 5000 /\
  exists r lt,
    Loan.mockMicroLoan "farmer-17" 5000 "agriculture" tt world_low 0%nat
      = Returns r 4%nat /\
    Loan.loan_terms r = Some lt /\
    0 <= Loan.total_interest lt.
Proof.
  assert (H : 0 < 5000) by reflexivity.
  split; [exact H |].
  destruct (loan_always_costs_interest "farmer-17" 5000 "agriculture" tt world_low 0 H)
    as (r & lt & E & Hlt & _ & _ & _ & Hi & _).
  exists r, lt. split; [exact E |]. split; [exact Hlt | exact Hi].
Defined.


(** X21.  A requested amount of zero gives a decision with zero terms: the
    approved amount, the monthly payment, the total repayment and the total
    interest are all 0, in every band and whether or not the application is
    approved. *)
Theorem loan_of_zero_has_zero_terms {D : Type} (id : string) (amount : Q)
    (purpose : string) (data : D) (w : World) (k : nat) :
  amount == 0 ->
  exists r lt,
    Loan.mockMicroLoan id amount purpose data w k = Returns r (4 + k)%nat /\
    Loan.loan_terms r = Some lt /\
    Loan.approved_amount lt == 0 /\
    Loan.monthly_payment lt == 0 /\
    Loan.total_repayment lt == 0 /\
    Loan.total_interest lt == 0.
Proof.
  intros H0.
  destruct (mockMicroLoan_returns id amount purpose data w k)
    as (r & lt & E & Hlt & _ & _ & _ & Ha & _ & Hm & Ht & Hi).
  set (c := Loan.compositeScoreOf _ _ _) in *.
  set (A := Num.Math_min amount (snd (Loan.termsBand c amount))) in *.
  set (P := Loan.monthlyPaymentOf A (fst (Loan.termsBand c amount) / 12)) in *.
  destruct (monthlyPayment_factor c amount A) as (f & Hf & _). fold P in Hf.
  assert (HA : A == 0).
  { destruct (approvedAmount_nonneg c amount ltac:(lra)) as (A0 & A1 & _).
    fold A in A0, A1. lra. }
  assert (HP : P == 0) by (rewrite Hf, HA; ring).
  assert (Z0 : Num.roundTo 100 0 == 0) by reflexivity.
  exists r, lt. split; [exact E |]. split; [exact Hlt |].
  rewrite Ha, Hm, Ht, Hi.
  repeat split;
    (apply Qeq_trans with (Num.roundTo 100 0); [| exact Z0]);
    apply roundTo_proper; try reflexivity; rewrite ?HP, ?HA; ring.
Qed.

Lemma loan_of_zero_has_zero_terms_witness :
  0 == 0 /\
  exists r lt,
    Loan.mockMicroLoan "farmer-17" 0 "agriculture" tt world_low 0%nat
      = Returns r 4%nat /\
    Loan.loan_terms r = Some lt /\
    Loan.monthly_payment lt == 0.
Proof.
  assert (H : 0 == 0) by reflexivity.
  split; [exact H |].
  destruct (loan_of_zero_has_zero_terms "farmer-17" 0 "agriculture" tt world_low 0 H)
    as (r & lt & E & Hlt & _ & Hm & _).
  exists r, lt. split; [exact E |]. split; [exact Hlt | exact Hm].
Defined.

(** X22.  The interest rate tells the decision: a response is approved
    exactly when its reported rate is at most 10 percent, and rejected
    exactly when the rate is 12 percent.  The rate never rises with the
    composite score. *)
Theorem loan_rate_reflects_approval {D : Type} (id : string) (amount : Q)
    (purpose : string) (data : D) (w : World) (k : nat) :
  (exists r lt,
      Loan.mockMicroLoan id amount purpose data w k = Returns r (4 + k)%nat /\
      Loan.loan_terms r = Some lt /\
      (Loan.approval_status r = true <-> Loan.interest_rate lt <= 0.10) /\
      (Loan.approval_status r = false <-> Loan.interest_rate lt == 0.12) /\
      Loan.approved (Loan.assessment r) = Loan.approval_status r) /\
  (forall c1 c2 a1 a2 : Q,
      c1 <= c2 -> fst (Loan.termsBand c2 a2) <= fst (Loan.termsBand c1 a1)).
Proof.
  split.
  - destruct (mockMicroLoan_returns id amount purpose data w k)
      as (r & lt & E & Hlt & Hs & Ha & Hr & _).
    set (c := Loan.compositeScoreOf _ _ _) in *.
    exists r, lt. split; [exact E |]. split; [exact Hlt |].
    rewrite Hs, Ha, Hr, band_rate_exact.
    destruct (termsBand_cases c amount)
      as [(H1 & ->) | [(H1 & H2 & ->) | [(H1 & H2 & ->) | (H1 & ->)]]];
      cbn [fst]; cmp_cases; try lra;
      repeat split; intros; try reflexivity; try discriminate;
      solve [exfalso; auto | lra].
  - intros c1 c2 a1 a2 H. unfold Loan.termsBand. cmp_cases; cbn [fst];
      solve [discriminate | lra].
Qed.

Lemma loan_rate_reflects_approval_witness :
  55 <= 80 /\ fst (Loan.termsBand 80 1000) <= fst (Loan.termsBand 55 1000).
Proof.
  assert (H : 55 <= 80) by discriminate.
  split; [exact H |].
  exact (proj2 (loan_rate_reflects_approval "x" 1000 "y" tt world_low 0) 55 80 1000 1000 H).
Defined.




(** ** Greenwashing check: the index, the anomalies and the view *)

(** The weight the rule checks give to an anomaly of a severity. *)
Lemma ruleChecks_weights (envScore emissions renewablePct trend : Q) :
  let checks := Greenwashing.ruleChecks envScore emissions renewablePct trend in
  snd checks == Qsum (map anomaly_weight (fst checks)) /\
  Forall (fun a => Greenwashing.severity a = "medium" \/
                   Greenwashing.severity a = "high") (fst checks) /\
  NoDup (map Greenwashing.type (fst checks)) /\
  (length (fst checks) <= 3)%nat /\
  (length (fst checks) = 0%nat -> snd checks == 0) /\
  ((2 <= length (fst checks))%nat -> 5 <= snd checks) /\
  exists n : Z, snd checks == inject_Z n /\ (0 <= n <= 8)%Z.
Proof.
  unfold Greenwashing.ruleChecks.
  destruct ((envScore >? 80) && (emissions >? 3000));
    destruct ((envScore >? 70) && (renewablePct <? 20));
    destruct ((trend >? 0.05) && (envScore >? 75));
    cbn [fst snd app map length];
    (split; [reflexivity |]);
    (split; [repeat (apply List.Forall_cons;
                     [first [left; reflexivity | right; reflexivity] |]);
             apply List.Forall_nil |]);
    (split; [repeat (apply NoDup_cons_2;
                     [rewrite ?not_elem_of_cons; repeat split;
                      solve [discriminate | apply not_elem_of_nil] |]);
             apply NoDup_nil_2 |]);
    (split; [lia |]);
    (split; [intros; solve [reflexivity | discriminate] |]);
    (split; [intros; solve [discriminate | lia] |]).
  - exists 8%Z. split; [reflexivity | lia].
  - exists 5%Z. split; [reflexivity | lia].
  - exists 5%Z. split; [reflexivity | lia].
  - exists 2%Z. split; [reflexivity | lia].
  - exists 6%Z. split; [reflexivity | lia].
  - exists 3%Z. split; [reflexivity | lia].
  - exists 3%Z. split; [reflexivity | lia].
  - exists 0%Z. split; [reflexivity | lia].
Qed.

(** The index of a report, for a draw of the unit interval, as an
    integer. *)
Lemma riskIndex_integer (riskFactors u : Q) (n : Z) :
  riskFactors == inject_Z n -> (0 <= n)%Z -> 0 <= u -> u < 1 ->
  let addend := Num.Math_floor (u * (20 - 0) + 0) in
  exists m a : Z,
    addend = inject_Z a /\ (0 <= a <= 19)%Z /\
    Greenwashing.riskIndexOf riskFactors addend == inject_Z m /\
    m = Z.min 100 (n * 15 + a).
Proof.
  intros Hn Hn0 H0 H1 addend.
  destruct (randomInt_range u 0 20 H0 H1 ltac:(reflexivity)) as [Hlo Hhi].
  unfold addend, Num.Math_floor in *. set (a := Qfloor _) in *.
  change (inject_Z (Qfloor 0)) with (inject_Z 0) in Hlo.
  assert (Hhi' : inject_Z a < inject_Z 20) by exact Hhi.
  rewrite <- Zle_Qle in Hlo. rewrite <- Zlt_Qlt in Hhi'.
  exists (Z.min 100 (n * 15 + a)), a.
  split; [reflexivity |]. split; [lia |]. split; [| reflexivity].
  unfold Greenwashing.riskIndexOf, Num.Math_min.
  assert (E : riskFactors * 15 + inject_Z a == inject_Z (n * 15 + a)).
  { rewrite Hn, inject_Z_plus, inject_Z_mult. reflexivity. }
  rewrite E. change 100 with (inject_Z 100).
  destruct (Z.min_spec 100 (n * 15 + a)) as [[Hlt ->] | [Hge ->]].
  - apply Q.min_l. rewrite <- Zle_Qle. lia.
  - apply Q.min_r. rewrite <- Zle_Qle. lia.
Qed.

(** X24.  For draws of [0, 1) the greenwashing risk index is an integer
    between 0 and 100, so the two slices of the gauge, the index and 100 minus
    the index, are both between 0 and 100; they always add up to 100. *)
Theorem greenwashing_index_is_a_percentage (companyId : string) (w : World) (k : nat) :
  unit_draws w ->
  exists r m,
    Greenwashing.mockGreenwashingCheck companyId w k = Returns r (6 + k)%nat /\
    Greenwashing.greenwashing_risk_index r == inject_Z m /\ (0 <= m <= 100)%Z /\
    let slices := GreenwashingView.getRiskGaugeData (Greenwashing.greenwashing_risk_index r) in
    map GreenwashingView.name slices = ["risk"; "safe"] /\
    Qsum (map GreenwashingView.value slices) == 100 /\
    Forall (fun s => 0 <= GreenwashingView.value s /\ GreenwashingView.value s <= 100)
           slices.
Proof.
  intros Hw.
  destruct (mockGreenwashingCheck_returns companyId w k) as (r & E & Hi & _).
  cbn zeta in Hi.
  set (checks := Greenwashing.ruleChecks _ _ _ _) in Hi.
  destruct (ruleChecks_weights
              (Num.Math_floor (Math_random w k * (95 - 50) + 50))
              (Num.Math_floor (Math_random w (1 + k) * (4000 - 500) + 500))
              (Num.Math_floor (Math_random w (2 + k) * (70 - 10) + 10))
              (Math_random w (3 + k) * (0.1 - -0.1) + -0.1))
    as (_ & _ & _ & _ & _ & _ & n & Hn & Hn0 & Hn8).
  fold checks in Hn.
  destruct (Hw (4 + k)%nat) as [U0 U1].
  destruct (riskIndex_integer (snd checks) _ n Hn Hn0 U0 U1)
    as (m & a & Ea & Ha & Hm & Em).
  exists r, m. split; [exact E |]. rewrite Hi.
  split; [exact Hm |]. split; [lia |].
  unfold GreenwashingView.getRiskGaugeData.
  cbn [map GreenwashingView.name GreenwashingView.value].
  split; [reflexivity |].
  split; [unfold Qsum; cbn [fold_left]; ring |].
  assert (B : 0 <= inject_Z m /\ inject_Z m <= 100).
  { change 0 with (inject_Z 0). change 100 with (inject_Z 100).
    rewrite <- !Zle_Qle. lia. }
  repeat constructor; cbn [GreenwashingView.value]; rewrite Hm; lra.
Qed.

Lemma greenwashing_index_is_a_percentage_witness :
  unit_draws world_low /\
  exists r m,
    Greenwashing.mockGreenwashingCheck "OilCo" world_low 0%nat = Returns r 6%nat /\
    Greenwashing.greenwashing_risk_index r == inject_Z m /\ (0 <= m <= 100)%Z.
Proof.
  assert (H : unit_draws world_low)
    by (intros i; split; [apply Qle_refl | reflexivity]).
  split; [exact H |].
  destruct (greenwashing_index_is_a_percentage "OilCo" world_low 0 H)
    as (r & m & E & Hm & Hb & _).
  exists r, m. split; [exact E |]. split; [exact Hm | exact Hb].
Defined.


Lemma recommendationsOf_cases (riskIndex : Q) :
  (50 < riskIndex /\
   Greenwashing.recommendationsOf riskIndex
   = [ "Request third-party verification of carbon claims";
       "Conduct detailed supply chain emissions audit";
       "Monitor emissions data more frequently" ]) \/
  (30 < riskIndex /\ riskIndex <= 50 /\
   Greenwashing.recommendationsOf riskIndex
   = [ "Monitor emissions data more frequently" ]) \/
  (riskIndex <= 30 /\
   Greenwashing.recommendationsOf riskIndex
   = [ "Continue current monitoring practices";
       "Consider publishing detailed sustainability reports" ]).
Proof.
  unfold Greenwashing.recommendationsOf. cmp_cases; try (exfalso; lra);
    first [ left; split; [assumption | reflexivity]
          | right; left; repeat split; solve [assumption | reflexivity]
          | right; right; split; [assumption | reflexivity] ].
Qed.

(** What a greenwashing report is made of, for draws of the unit
    interval. *)
Lemma mockGreenwashingCheck_structure (companyId : string) (w : World) (k : nat) :
  unit_draws w ->
  exists r (a : Z),
    Greenwashing.mockGreenwashingCheck companyId w k = Returns r (6 + k)%nat /\
    (0 <= a <= 19)%Z /\
    let riskFactors := Qsum (map anomaly_weight (Greenwashing.anomalies r)) in
    let riskIndex := Greenwashing.greenwashing_risk_index r in
    riskIndex == Qmin 100 (15 * riskFactors + inject_Z a) /\
    Greenwashing.risk_level r = Greenwashing.riskLevelOf riskIndex /\
    Greenwashing.recommendations r = Greenwashing.recommendationsOf riskIndex /\
    Greenwashing.anomaly_count r = length (Greenwashing.anomalies r) /\
    (length (Greenwashing.anomalies r) <= 3)%nat /\
    Forall (fun x => Greenwashing.severity x = "medium" \/
                     Greenwashing.severity x = "high") (Greenwashing.anomalies r) /\
    NoDup (map Greenwashing.type (Greenwashing.anomalies r)) /\
    (length (Greenwashing.anomalies r) = 0%nat -> riskFactors == 0) /\
    ((2 <= length (Greenwashing.anomalies r))%nat -> 5 <= riskFactors).
Proof.
  intros Hw.
  destruct (mockGreenwashingCheck_returns companyId w k)
    as (r & E & Hi & Hl & Hr & Ha & Hc).
  cbn zeta in Hi, Hl, Hr, Ha, Hc.
  set (checks := Greenwashing.ruleChecks _ _ _ _) in *.
  destruct (ruleChecks_weights
              (Num.Math_floor (Math_random w k * (95 - 50) + 50))
              (Num.Math_floor (Math_random w (1 + k) * (4000 - 500) + 500))
              (Num.Math_floor (Math_random w (2 + k) * (70 - 10) + 10))
              (Math_random w (3 + k) * (0.1 - -0.1) + -0.1))
    as (W1 & W2 & W3 & W4 & W5 & W6 & n & Hn & Hn0 & Hn8).
  fold checks in W1, W2, W3, W4, W5, W6, Hn.
  destruct (Hw (4 + k)%nat) as [U0 U1].
  destruct (riskIndex_integer (snd checks) _ n Hn Hn0 U0 U1)
    as (m & a & Ea & Hab & Hm & Em).
  exists r, a. split; [exact E |]. split; [exact Hab |]. cbn zeta.
  rewrite Ha.
  split.
  { rewrite Hi. unfold Greenwashing.riskIndexOf, Num.Math_min. rewrite Ea.
    apply Q.min_compat; [reflexivity |]. rewrite <- W1. ring. }
  split; [rewrite Hl, Hi; reflexivity |].
  split; [rewrite Hr, Hi; reflexivity |].
  split; [rewrite Hc; reflexivity |].
  split; [exact W4 |]. split; [exact W2 |]. split; [exact W3 |].
  split; intros H; rewrite <- W1; auto.
Qed.

(** X25.  The risk index of a report can be recomputed from the anomalies
    it lists: with 2 points for an anomaly of severity "medium" and 3 for one
    of severity "high", the index is min(100, 15 * points + addend) for an
    integer addend from 0 to 19 (draws of [0, 1)).  A report lists at most
    three anomalies, of three different types, each of severity "medium" or
    "high" (never "low"), and its anomaly count is the length of the list. *)
Theorem greenwashing_index_from_anomalies (companyId : string) (w : World) (k : nat) :
  unit_draws w ->
  exists r (a : Z),
    Greenwashing.mockGreenwashingCheck companyId w k = Returns r (6 + k)%nat /\
    (0 <= a <= 19)%Z /\
    Greenwashing.greenwashing_risk_index r
    == Qmin 100 (15 * Qsum (map anomaly_weight (Greenwashing.anomalies r)) + inject_Z a) /\
    Greenwashing.anomaly_count r = length (Greenwashing.anomalies r) /\
    (Greenwashing.anomaly_count r <= 3)%nat /\
    Forall (fun x => Greenwashing.severity x = "medium" \/
                     Greenwashing.severity x = "high") (Greenwashing.anomalies r) /\
    NoDup (map Greenwashing.type (Greenwashing.anomalies r)).
Proof.
  intros Hw.
  destruct (mockGreenwashingCheck_structure companyId w k Hw)
    as (r & a & E & Ha & Hi & _ & _ & Hc & Hn & Hs & Hd & _).
  exists r, a. rewrite Hc. repeat split; try assumption; lia.
Qed.

Lemma greenwashing_index_from_anomalies_witness :
  unit_draws world_low_then_high /\
  exists r (a : Z),
    Greenwashing.mockGreenwashingCheck "OilCo" world_low_then_high 0%nat
      = Returns r 6%nat /\
    (0 <= a <= 19)%Z /\
    Greenwashing.greenwashing_risk_index r
    == Qmin 100 (15 * Qsum (map anomaly_weight (Greenwashing.anomalies r)) + inject_Z a).
Proof.
  assert (H : unit_draws world_low_then_high).
  { intros i. unfold world_low_then_high, world_of. cbn [Math_random].
    destruct (Nat.ltb i 3); split;
      solve [apply Qle_refl | reflexivity | discriminate]. }
  split; [exact H |].
  destruct (greenwashing_index_from_anomalies "OilCo" world_low_then_high 0 H)
    as (r & a & E & Ha & Hi & _).
  exists r, a. split; [exact E |]. split; [exact Ha | exact Hi].
Defined.

(** X26.  For draws of [0, 1): a report without anomalies has an index of at
    most 19, the level "low" and the two recommendations of the lowest band;
    a report with two or three anomalies has an index of at least 75, the
    level "high" and the three recommendations of the upper bands. *)
Theorem greenwashing_level_follows_anomalies (companyId : string) (w : World) (k : nat) :
  unit_draws w ->
  exists r,
    Greenwashing.mockGreenwashingCheck companyId w k = Returns r (6 + k)%nat /\
    (Greenwashing.anomaly_count r = 0%nat ->
       Greenwashing.greenwashing_risk_index r <= 19 /\
       Greenwashing.risk_level r = "low" /\
       Greenwashing.recommendations r
       = [ "Continue current monitoring practices";
           "Consider publishing detailed sustainability reports" ]) /\
    ((2 <= Greenwashing.anomaly_count r)%nat ->
       75 <= Greenwashing.greenwashing_risk_index r /\
       Greenwashing.risk_level r = "high" /\
       Greenwashing.recommendations r
       = [ "Request third-party verification of carbon claims";
           "Conduct detailed supply chain emissions audit";
           "Monitor emissions data more frequently" ]).
Proof.
  intros Hw.
  destruct (mockGreenwashingCheck_structure companyId w k Hw)
    as (r & a & E & Ha & Hi & Hl & Hr & Hc & _ & _ & _ & H0 & H2).
  cbn zeta in Hi, Hl, Hr, H0, H2.
  set (idx := Greenwashing.greenwashing_risk_index r) in *.
  set (rf := Qsum _) in *.
  assert (A0 : 0 <= inject_Z a /\ inject_Z a <= 19).
  { change 0 with (inject_Z 0). change 19 with (inject_Z 19).
    rewrite <- !Zle_Qle. lia. }
  exists r. split; [exact E |]. rewrite Hc, Hl, Hr. split.
  - intros Hz. specialize (H0 Hz).
    assert (I : idx <= 19).
    { rewrite Hi. eapply Qle_trans; [apply Q.le_min_r |]. rewrite H0. lra. }
    split; [exact I |].
    destruct (riskLevelOf_cases idx) as [(L & _) | [(L & _) | (_ & ->)]]; try lra.
    destruct (recommendationsOf_cases idx) as [(R & _) | [(R & _) | (_ & ->)]]; try lra.
    split; reflexivity.
  - intros Hz. specialize (H2 Hz).
    assert (I : 75 <= idx).
    { rewrite Hi. apply Q.min_glb; [discriminate | lra]. }
    split; [exact I |].
    destruct (riskLevelOf_cases idx) as [(_ & ->) | [(_ & L & _) | (L & _)]]; try lra.
    destruct (recommendationsOf_cases idx) as [(_ & ->) | [(_ & R & _) | (R & _)]]; try lra.
    split; reflexivity.
Qed.

Lemma greenwashing_level_follows_anomalies_witness :
  unit_draws world_low /\
  exists r,
    Greenwashing.mockGreenwashingCheck "OilCo" world_low 0%nat = Returns r 6%nat /\
    Greenwashing.anomaly_count r = 0%nat /\
    Greenwashing.risk_level r = "low".
Proof.
  assert (H : unit_draws world_low)
    by (intros i; split; [apply Qle_refl | reflexivity]).
  split; [exact H |].
  destruct (greenwashing_level_follows_anomalies "OilCo" world_low 0 H)
    as (r & E & H0 & _).
  exists r. split; [exact E |].
  assert (C : Greenwashing.anomaly_count r = 0%nat).
  { vm_compute in E. injection E as <-. reflexivity. }
  split; [exact C | exact (proj1 (proj2 (H0 C)))].
Defined.



(** X28.  [getRiskColor] finds an own colour for the level of every
    generated report: "#ef4444" exactly when the index is above 60, "#fbbf24"
    exactly when it is above 30 and at most 60, "#00ff88" exactly when it is
    at most 30.  A level that is neither a key of the table nor a member of
    [Object.prototype] is painted "#00ff88", the colour of "low"; the name of
    a member of [Object.prototype] yields that member instead of a colour. *)
Theorem risk_colour_lookup :
  (forall (companyId : string) (w : World) (k : nat),
      exists r c,
        Greenwashing.mockGreenwashingCheck companyId w k = Returns r (6 + k)%nat /\
        GreenwashingView.getRiskColor (Greenwashing.risk_level r) = Own c /\
        GreenwashingView.colors !! Greenwashing.risk_level r = Some c /\
        (c = "#ef4444" <-> 60 < Greenwashing.greenwashing_risk_index r) /\
        (c = "#fbbf24" <-> 30 < Greenwashing.greenwashing_risk_index r /\
                           Greenwashing.greenwashing_risk_index r <= 60) /\
        (c = "#00ff88" <-> Greenwashing.greenwashing_risk_index r <= 30)) /\
  (forall level : string,
      GreenwashingView.colors !! level = None ->
      level ∉ Object_prototype_keys ->
      GreenwashingView.getRiskColor level = Own "#00ff88") /\
  (forall level : string,
      level ∈ Object_prototype_keys ->
      GreenwashingView.getRiskColor level = Inherited).
Proof.
  split; [| split].
  - intros companyId w k.
    destruct (mockGreenwashingCheck_returns companyId w k) as (r & E & Hi & Hl & _).
    cbn zeta in Hi, Hl.
    remember (Greenwashing.riskIndexOf _ _) as idx eqn:Hidx in Hi, Hl.
    clear Hidx.
    exists r. rewrite Hl, Hi. clear Hl Hi.
    destruct (riskLevelOf_cases idx) as [(L1 & ->) | [(L1 & L2 & ->) | (L1 & ->)]];
      eexists; (split; [exact E |]); (split; [vm_compute; reflexivity |]);
      (split; [reflexivity |]);
      repeat split; intros; try discriminate; try assumption; try reflexivity;
      try (exfalso; lra);
      try (match goal with H : _ /\ _ |- _ => destruct H; exfalso; lra end).
  - intros level Hnone Hproto.
    unfold GreenwashingView.getRiskColor, get. rewrite Hnone.
    destruct (decide (level ∈ Object_prototype_keys)); [contradiction | reflexivity].
  - intros level Hin. unfold Object_prototype_keys in Hin.
    rewrite !elem_of_cons, elem_of_nil in Hin.
    decompose [or] Hin; subst; try contradiction; reflexivity.
Qed.

Lemma risk_colour_lookup_witness :
  GreenwashingView.colors !! "critical" = None /\ ("critical" ∉ Object_prototype_keys) /\
  GreenwashingView.getRiskColor "critical" = Own "#00ff88".
Proof.
  assert (H1 : GreenwashingView.colors !! "critical" = None) by reflexivity.
  assert (H2 : "critical" ∉ Object_prototype_keys).
  { unfold Object_prototype_keys. rewrite !not_elem_of_cons.
    repeat split; [discriminate .. | apply not_elem_of_nil]. }
  split; [exact H1 |]. split; [exact H2 |].
  exact (proj1 (proj2 risk_colour_lookup) "critical" H1 H2).
Defined.

(** ** Dashboard data *)

(** A row of the trend chart for month number [i] and draws of the unit
    interval. *)
Lemma trendRow_bounds (mon : string) (i : Z) (w : World) (k : nat) :
  unit_draws w -> (0 <= i <= 11)%Z ->
  exists row,
    Dashboard.trendRow mon (inject_Z i) w k = Returns row (2 + k)%nat /\
    trend_row_ok mon (inject_Z i) row.
Proof.
  intros Hw Hi. destruct (Hw k) as [U0 U1]. destruct (Hw (S k)) as [V0 V1].
  unfold Dashboard.trendRow. run_js. eexists. split; [reflexivity |].
  unfold trend_row_ok.
  cbn [Dashboard.month Dashboard.emissions Dashboard.target Dashboard.offset].
  assert (I0 : 0 <= inject_Z i) by (change 0 with (inject_Z 0); rewrite <- Zle_Qle; lia).
  assert (I1 : inject_Z i <= 11) by (change 11 with (inject_Z 11); rewrite <- Zle_Qle; lia).
  set (q := inject_Z i) in *. set (u := Math_random w k) in *.
  set (v := Math_random w (S k)) in *.
  assert (M : Qmax 100 (500 - q * 30 + u * 50) == 500 - q * 30 + u * 50)
    by (apply Q.max_r; lra).
  rewrite M. repeat split; try reflexivity; lra.
Qed.

Lemma mapMi_trendRow (l : list string) :
  forall (s : nat) (w : World) (k : nat),
  unit_draws w -> (s + length l <= 12)%nat ->
  exists rows,
    Dashboard.mapMi Dashboard.trendRow (Z.of_nat s) l w k
      = Returns rows (2 * length l + k)%nat /\
    length rows = length l /\
    forall (j : nat) (row : Dashboard.TrendRow),
      rows !! j = Some row ->
      exists mon, l !! j = Some mon /\
                  trend_row_ok mon (inject_Z (Z.of_nat (s + j))) row.
Proof.
  induction l as [| mon l IH]; intros s w k Hw Hlen.
  - exists []. split; [reflexivity |]. split; [reflexivity |].
    intros j row H. rewrite lookup_nil in H. discriminate.
  - cbn [length] in Hlen.
    destruct (trendRow_bounds mon (Z.of_nat s) w k Hw ltac:(lia)) as (row & Er & Hr).
    destruct (IH (S s) w (2 + k)%nat Hw ltac:(lia)) as (rows & Es & Hn & Hs).
    exists (row :: rows). cbn [Dashboard.mapMi]. unfold bind at 1. rewrite Er.
    replace (Z.of_nat s + 1)%Z with (Z.of_nat (S s)) by lia.
    unfold bind at 1. rewrite Es. unfold ret.
    split; [f_equal; cbn [length]; lia |].
    split; [cbn [length]; lia |].
    intros [| j] row' H.
    + cbn in H. injection H as <-. exists mon. split; [reflexivity |].
      rewrite Nat.add_0_r. exact Hr.
    + cbn in H. destruct (Hs j row' H) as (mon' & Hm & Hok).
      exists mon'. split; [exact Hm |].
      replace (s + S j)%nat with (S s + j)%nat by lia. exact Hok.
Qed.

(** X29.  For draws of [0, 1), [generateCarbonTrendData] uses 24 draws and
    returns one row per month, January to December.  In the row of month
    number i (from 0) the target is 500 - 35 i, the emissions lie in
    [500 - 30 i, 550 - 30 i] and the offset in [50 + 10 i, 70 + 10 i]; the
    emissions are always above 100, so the floor of [Math.max(100, ...)] never
    applies, and they are never below the target. *)
Theorem carbon_trend_rows (w : World) (k : nat) :
  unit_draws w ->
  exists rows,
    Dashboard.generateCarbonTrendData w k = Returns rows (24 + k)%nat /\
    map Dashboard.month rows = Dashboard.months /\
    forall (j : nat) (row : Dashboard.TrendRow),
      rows !! j = Some row ->
      let i := inject_Z (Z.of_nat j) in
      Dashboard.target row == 500 - i * 35 /\
      (500 - i * 30 <= Dashboard.emissions row /\
       Dashboard.emissions row <= 550 - i * 30) /\
      100 < Dashboard.emissions row /\
      Dashboard.target row <= Dashboard.emissions row /\
      (50 + i * 10 <= Dashboard.offset row /\ Dashboard.offset row <= 70 + i * 10).
Proof.
  intros Hw.
  destruct (mapMi_trendRow Dashboard.months 0 w k Hw ltac:(cbn; lia))
    as (rows & E & Hn & Hrows).
  exists rows. split; [exact E |]. split.
  - apply list_eq. intros j. rewrite list_lookup_fmap.
    destruct (rows !! j) as [row |] eqn:Hj.
    + destruct (Hrows j row Hj) as (mon & Hm & Hok). cbn. rewrite Hm.
      f_equal. apply Hok.
    + cbn. symmetry. apply lookup_ge_None. apply lookup_ge_None in Hj. lia.
  - intros j row Hj. destruct (Hrows j row Hj) as (mon & _ & Hok).
    cbn [Nat.add] in Hok. unfold trend_row_ok in Hok. cbn zeta. tauto.
Qed.

Lemma carbon_trend_rows_witness :
  unit_draws world_low /\
  exists rows,
    Dashboard.generateCarbonTrendData world_low 0%nat = Returns rows 24%nat /\
    map Dashboard.month rows = Dashboard.months.
Proof.
  assert (H : unit_draws world_low)
    by (intros i; split; [apply Qle_refl | reflexivity]).
  split; [exact H |].
  destruct (carbon_trend_rows world_low 0 H) as (rows & E & Hm & _).
  exists rows. split; [exact E | exact Hm].
Defined.

(** X30.  One tick of the dashboard timer uses two draws.  For draws of
    [0, 1) it adds an integer from 0 to 2 to the number of assessments and an
    integer from 0 to 99 to the carbon reduced, and leaves the green
    investments and the approved loans unchanged: no counter ever
    decreases. *)
Theorem dashboard_counters_never_decrease (prev : Dashboard.Stats) (w : World) (k : nat) :
  unit_draws w ->
  exists (next : Dashboard.Stats) (a b : Z),
    Dashboard.tick prev w k = Returns next (2 + k)%nat /\
    Dashboard.totalAssessments next = Dashboard.totalAssessments prev + inject_Z a /\
    (0 <= a <= 2)%Z /\
    Dashboard.carbonReduced next = Dashboard.carbonReduced prev + inject_Z b /\
    (0 <= b <= 99)%Z /\
    Dashboard.greenInvestments next = Dashboard.greenInvestments prev /\
    Dashboard.loansApproved next = Dashboard.loansApproved prev /\
    Dashboard.totalAssessments prev <= Dashboard.totalAssessments next /\
    Dashboard.carbonReduced prev <= Dashboard.carbonReduced next.
Proof.
  intros Hw. destruct (Hw k) as [U0 U1]. destruct (Hw (S k)) as [V0 V1].
  unfold Dashboard.tick. run_js.
  set (u := Math_random w k) in *. set (v := Math_random w (S k)) in *.
  assert (A : (0 <= Qfloor (u * 3) <= 2)%Z).
  { assert (L : inject_Z 0 <= u * 3) by (change (inject_Z 0) with 0; lra).
    assert (R : u * 3 < inject_Z 3) by (change (inject_Z 3) with 3; lra).
    apply Qfloor_resp_le in L. rewrite Qfloor_Z in L.
    pose proof (Qfloor_le (u * 3)) as F.
    assert (F' : inject_Z (Qfloor (u * 3)) < inject_Z 3) by lra.
    rewrite <- Zlt_Qlt in F'. lia. }
  assert (B : (0 <= Qfloor (v * 100) <= 99)%Z).
  { assert (L : inject_Z 0 <= v * 100) by (change (inject_Z 0) with 0; lra).
    assert (R : v * 100 < inject_Z 100) by (change (inject_Z 100) with 100; lra).
    apply Qfloor_resp_le in L. rewrite Qfloor_Z in L.
    pose proof (Qfloor_le (v * 100)) as F.
    assert (F' : inject_Z (Qfloor (v * 100)) < inject_Z 100) by lra.
    rewrite <- Zlt_Qlt in F'. lia. }
  eexists. exists (Qfloor (u * 3)), (Qfloor (v * 100)).
  split; [reflexivity |].
  cbn [Dashboard.totalAssessments Dashboard.carbonReduced Dashboard.greenInvestments
       Dashboard.loansApproved].
  unfold Num.Math_floor.
  assert (A' : 0 <= inject_Z (Qfloor (u * 3)))
    by (change 0 with (inject_Z 0); rewrite <- Zle_Qle; lia).
  assert (B' : 0 <= inject_Z (Qfloor (v * 100)))
    by (change 0 with (inject_Z 0); rewrite <- Zle_Qle; lia).
  repeat split; try reflexivity; try lia; lra.
Qed.

Lemma dashboard_counters_never_decrease_witness :
  unit_draws world_low_then_high /\
  exists next,
    Dashboard.tick Dashboard.initialStats world_low_then_high 3%nat = Returns next 5%nat /\
    Dashboard.totalAssessments Dashboard.initialStats <= Dashboard.totalAssessments next.
Proof.
  assert (H : unit_draws world_low_then_high).
  { intros i. unfold world_low_then_high, world_of. cbn [Math_random].
    destruct (Nat.ltb i 3); split;
      solve [apply Qle_refl | reflexivity | discriminate]. }
  split; [exact H |].
  destruct (dashboard_counters_never_decrease Dashboard.initialStats world_low_then_high 3 H)
    as (next & a & b & E & _ & _ & _ & _ & _ & _ & Hle & _).
  exists next. split; [exact E | exact Hle].
Defined.
